(** * SmarAct MCS driver core ([smaract.py]): shallow embedding and properties

    The Python class [SmarAct] wraps the vendor library [MCSControl.dll]
    through [ctypes].  The library is an external collaborator: it is modelled
    as a [Transport], a function answering every library call from a device
    state.  The driver's methods are programs of a small state and exception
    monad over a [World] that holds the one [SmarAct] object, the device, the
    record of all library calls made so far, and the console. *)

From Stdlib Require Import ZArith NArith List Bool Lia.
From Stdlib.Strings Require Import String Ascii Byte.
Import ListNotations.
Local Open Scope Z_scope.

(** ** ctypes integer cells

    [MCSControl.dll] is a Windows library, where the C types [long] and
    [unsigned long] are 32 bits wide.  [ctypes] does no overflow checking:
    a Python integer stored in a cell is reduced modulo [2^32]. *)
Module Ctypes.

Definition long_bits : Z := 32.
Definition long_modulus : Z := 2 ^ long_bits.

(** [ctypes.c_ulong(v).value] *)
Definition c_ulong (v : Z) : Z := v mod long_modulus.

(** [ctypes.c_long(v).value] *)
Definition c_long (v : Z) : Z :=
  (v + long_modulus / 2) mod long_modulus - long_modulus / 2.

Definition in_c_long (v : Z) : Prop :=
  - (long_modulus / 2) <= v < long_modulus / 2.

Definition in_c_ulong (v : Z) : Prop := 0 <= v < long_modulus.

End Ctypes.
Import Ctypes.

(** ** Python text

    A Python [bytes] object is a list of bytes, a Python [str] a list of
    Unicode code points. *)
Definition bytes := list byte.
Definition str := list N.

Definition ascii_bytes (s : string) : bytes := list_byte_of_string s.
Definition text (s : string) : str := map Byte.to_N (ascii_bytes s).

Module Codec.

Definition is_cont (b : byte) : bool :=
  ((0x80 <=? Byte.to_N b) && (Byte.to_N b <? 0xC0))%N.

Definition between (lo hi : N) (b : byte) : bool :=
  ((lo <=? Byte.to_N b) && (Byte.to_N b <=? hi))%N.

Definition low6 (b : byte) : N := (Byte.to_N b - 0x80)%N.

(** [bytes.decode()] with the default codec (UTF-8) and error handler
    (strict): [None] stands for [UnicodeDecodeError].  The accepted byte
    sequences are the well-formed ones of the Unicode standard: no overlong
    form, no surrogate, nothing above U+10FFFF. *)
Fixpoint utf8_decode (bs : bytes) : option str :=
  match bs with
  | [] => Some []
  | b1 :: t1 =>
    let n1 := Byte.to_N b1 in
    if (n1 <? 0x80)%N then option_map (cons n1) (utf8_decode t1)
    else if (n1 <? 0xC2)%N then None
    else if (n1 <? 0xE0)%N then
      match t1 with
      | b2 :: t2 =>
        if is_cont b2
        then option_map (cons ((n1 - 0xC0) * 64 + low6 b2)%N) (utf8_decode t2)
        else None
      | _ => None
      end
    else if (n1 <? 0xF0)%N then
      match t1 with
      | b2 :: b3 :: t3 =>
        if (if (n1 =? 0xE0)%N then between 0xA0 0xBF b2
            else if (n1 =? 0xED)%N then between 0x80 0x9F b2
            else is_cont b2) && is_cont b3
        then option_map
               (cons ((n1 - 0xE0) * 4096 + low6 b2 * 64 + low6 b3)%N)
               (utf8_decode t3)
        else None
      | _ => None
      end
    else if (n1 <? 0xF5)%N then
      match t1 with
      | b2 :: b3 :: b4 :: t4 =>
        if (if (n1 =? 0xF0)%N then between 0x90 0xBF b2
            else if (n1 =? 0xF4)%N then between 0x80 0x8F b2
            else is_cont b2) && is_cont b3 && is_cont b4
        then option_map
               (cons ((n1 - 0xF0) * 262144 + low6 b2 * 4096
                      + low6 b3 * 64 + low6 b4)%N)
               (utf8_decode t4)
        else None
      | _ => None
      end
    else None
  end.

(** [str.encode('ascii')]: [None] stands for [UnicodeEncodeError]. *)
Fixpoint ascii_encode (s : str) : option bytes :=
  match s with
  | [] => Some []
  | c :: t =>
    if (c <? 0x80)%N
    then match Byte.of_N c with
         | Some b => option_map (cons b) (ascii_encode t)
         | None => None
         end
    else None
  end.

End Codec.
Import Codec.

(** ** The regular expression [usb:id:[0-9]{10}] *)
Module Locator.

Definition tag : str := text "usb:id:".
Definition id_digits : nat := 10.
Definition locator_length : nat := List.length tag + id_digits.

(** The class [[0-9]] of a [str] pattern: the ten ASCII digits only. *)
Definition is_digit (c : N) : bool := ((48 <=? c) && (c <=? 57))%N.

Fixpoint starts_with (p s : str) : option str :=
  match p, s with
  | [], _ => Some s
  | c :: p', d :: s' => if (c =? d)%N then starts_with p' s' else None
  | _ :: _, [] => None
  end.

Fixpoint digits_at (n : nat) (s : str) : bool :=
  match n, s with
  | O, _ => true
  | S n', c :: s' => is_digit c && digits_at n' s'
  | S _, [] => false
  end.

(** The pattern matches at the very start of [s]. *)
Definition matches_at (s : str) : bool :=
  match starts_with tag s with
  | Some rest => digits_at id_digits rest
  | None => false
  end.

(** [re.findall]: the matches found scanning from the left; after a match
    the scan resumes just behind it, which [skip] counts down. *)
Fixpoint findall_from (skip : nat) (s : str) : list str :=
  match s with
  | [] => []
  | _ :: t =>
    match skip with
    | S k => findall_from k t
    | O =>
      if matches_at s
      then firstn locator_length s :: findall_from (locator_length - 1) t
      else findall_from 0 t
    end
  end.

Definition findall (s : str) : list str := findall_from 0 s.

End Locator.
Import Locator.

(** ** Exceptions and outcomes

    The driver raises the base class [Exception] with a fixed message for
    every failure it detects itself; the other classes are raised by the
    Python run time. *)
Inductive exn : Type :=
| Exception (message : string)
| UnicodeDecodeError
| UnicodeEncodeError
| AttributeError (attribute : string).

Inductive outcome (A : Type) : Type :=
| Return (a : A)
| Raise (e : exn).
Arguments Return {A} a.
Arguments Raise {A} e.

Definition is_raise {A} (o : outcome A) : bool :=
  match o with Raise _ => true | Return _ => false end.

(** ** The vendor library as a transport

    One constructor per entry point of [MCSControl.dll] that the driver
    uses, with the arguments as the library receives them. *)
Inductive call : Type :=
| SA_FindSystems (options outList : bytes) (ioListSize : Z)
| SA_OpenSystem (locator options : bytes)
| SA_CloseSystem (systemIndex : Z)
| SA_GetNumberOfChannels (systemIndex : Z)
| SA_GetPosition_S (systemIndex channelIndex : Z)
| SA_FindReferenceMark_S
    (systemIndex channelIndex direction holdTime autoZero : Z)
| SA_GotoPositionRelative_S (systemIndex channelIndex diff holdTime : Z)
| SA_GotoPositionAbsolute_S (systemIndex channelIndex position holdTime : Z)
| SA_Stop_S (systemIndex channelIndex : Z).

(** What a library call hands back: the status it returns, as [ctypes]
    gives it to Python; the integer it stores through a [byref] pointer (for
    the entry points that have one), of which the 32-bit cell keeps the low
    bits; and the contents of the output buffer (for [SA_FindSystems]). *)
Record reply : Type := Reply {
  status : Z;
  out_value : Z;
  out_buffer : bytes
}.

Definition Transport (D : Type) : Type := call -> D -> reply * D.

(** ** The object and the world *)
Record SmarAct : Type := Object {
  controller_locator : option str;
  system_index : option Z
}.

(** A freshly allocated object has no attribute yet. *)
Definition blank : SmarAct :=
  {| controller_locator := None; system_index := None |}.

Record World (D : Type) : Type := MkWorld {
  self : SmarAct;
  device : D;
  calls : list (call * reply);
  stdout : list string
}.
Arguments MkWorld {D} self device calls stdout.
Arguments self {D} w.
Arguments device {D} w.
Arguments calls {D} w.
Arguments stdout {D} w.

Module Msg.
Definition find_systems : string := "SmarAct SA_FindSystems error".
Definition no_controller : string := "No controller found".
Definition open_system : string := "SmarAct SA_OpenSystem failed".
Definition number_of_channels : string :=
  "SmarAct SA_GetNumberOfChannels failed".
Definition close_system : string := "SmarAct SA_CloseSystem failed".
Definition position : string := "SmarAct SA_GetPosition failed".
Definition reference_mark : string := "SmarAct SA_FindReferenceMark failed".
Definition goto_relative : string := "SmarAct SA_GotoPositionRelative failed".
Definition goto_absolute : string := "SmarAct SA_GotoPositionAbsolute failed".
Definition stop : string := "SmarAct SA_Stop failed".
Definition referenced : string := "The positionner is referenced !".
End Msg.

Definition space : byte := "032"%byte.
Definition nul : byte := "000"%byte.

Section Driver.

Context {D : Type}.
Variable SmaractDll : Transport D.

(** *** The monad of the driver: state and exceptions *)
Definition M (A : Type) : Type := World D -> outcome A * World D.

Definition ret {A} (a : A) : M A := fun w => (Return a, w).

Definition raise {A} (e : exn) : M A := fun w => (Raise e, w).

Definition bind {A B} (m : M A) (k : A -> M B) : M B :=
  fun w =>
    match m w with
    | (Return a, w') => k a w'
    | (Raise e, w') => (Raise e, w')
    end.

Notation "x <- m ;; k" := (bind m (fun x => k))
  (at level 61, m at next level, right associativity).
Notation "m ;;; k" := (bind m (fun _ => k))
  (at level 61, right associativity).

(** A call into the library: the device answers and moves on, and the
    call is recorded with its answer. *)
Definition dll (c : call) : M reply :=
  fun w =>
    let (r, d) := SmaractDll c (device w) in
    (Return r,
     {| self := self w; device := d;
        calls := calls w ++ [(c, r)]; stdout := stdout w |}).

Definition print (line : string) : M unit :=
  fun w =>
    (Return tt,
     {| self := self w; device := device w;
        calls := calls w; stdout := stdout w ++ [line] |}).

(** [self.system_index] *)
Definition get_system_index : M Z :=
  fun w =>
    match system_index (self w) with
    | Some i => (Return i, w)
    | None => (Raise (AttributeError "system_index"), w)
    end.

(** [self.controller_locator] *)
Definition get_controller_locator_attr : M str :=
  fun w =>
    match controller_locator (self w) with
    | Some l => (Return l, w)
    | None => (Raise (AttributeError "controller_locator"), w)
    end.

Definition set_self (o : SmarAct) : M unit :=
  fun w =>
    (Return tt,
     {| self := o; device := device w;
        calls := calls w; stdout := stdout w |}).

Definition set_controller_locator (l : str) : M unit :=
  fun w =>
    set_self {| controller_locator := Some l;
                system_index := system_index (self w) |} w.

Definition set_system_index (i : Z) : M unit :=
  fun w =>
    set_self {| controller_locator := controller_locator (self w);
                system_index := Some i |} w.

Definition decode (b : bytes) : M str :=
  match utf8_decode b with
  | Some s => ret s
  | None => raise UnicodeDecodeError
  end.

Definition encode_ascii (s : str) : M bytes :=
  match ascii_encode s with
  | Some b => ret b
  | None => raise UnicodeEncodeError
  end.

(** *** The methods of [SmarAct] *)

Definition get_controller_locator : M str :=
  let ioListSize := 4096%nat in
  let options := [nul] in
  let outList := repeat space ioListSize in
  let ioListSize := c_ulong (Z.of_nat ioListSize) in
  r <- dll (SA_FindSystems options outList ioListSize) ;;
  if negb (status r =? 0) then raise (Exception Msg.find_systems)
  else
    decoded <- decode (out_buffer r) ;;
    let controller_locator := findall decoded in
    match controller_locator with
    | [] => raise (Exception Msg.no_controller)
    | first :: _ => ret first
    end.

Definition init_communication (controller_locator : str) : M Z :=
  let options := ascii_bytes "sync" in
  locator <- encode_ascii controller_locator ;;
  r <- dll (SA_OpenSystem locator options) ;;
  if negb (status r =? 0) then raise (Exception Msg.open_system)
  else ret (c_ulong (out_value r)).

Definition close_communication : M unit :=
  system_index <- get_system_index ;;
  r <- dll (SA_CloseSystem (c_ulong system_index)) ;;
  if negb (status r =? 0) then raise (Exception Msg.close_system)
  else ret tt.

Definition get_number_of_channels : M Z :=
  system_index <- get_system_index ;;
  r <- dll (SA_GetNumberOfChannels (c_ulong system_index)) ;;
  if negb (status r =? 0) then
    close_communication ;;;
    raise (Exception Msg.number_of_channels)
  else ret (c_ulong (out_value r)).

Definition get_position (channel_index : Z) : M Z :=
  system_index <- get_system_index ;;
  r <- dll (SA_GetPosition_S (c_ulong system_index) (c_ulong channel_index)) ;;
  if negb (status r =? 0) then
    close_communication ;;;
    raise (Exception Msg.position)
  else ret (c_long (out_value r)).

Definition find_reference (channel_index : Z) : M unit :=
  let direction := 0 in
  let hold_time := 60000 in
  let auto_zero := 1 in
  system_index <- get_system_index ;;
  r <- dll (SA_FindReferenceMark_S
              (c_ulong system_index) (c_ulong channel_index)
              (c_ulong direction) (c_ulong hold_time) (c_ulong auto_zero)) ;;
  if negb (status r =? 0) then
    close_communication ;;;
    raise (Exception Msg.reference_mark)
  else print Msg.referenced.

Definition relative_move (channel_index relative_position : Z) : M unit :=
  let hold_time := 60000 in
  system_index <- get_system_index ;;
  r <- dll (SA_GotoPositionRelative_S
              (c_ulong system_index) (c_ulong channel_index)
              (c_long relative_position) (c_ulong hold_time)) ;;
  if negb (status r =? 0) then
    close_communication ;;;
    raise (Exception Msg.goto_relative)
  else ret tt.

Definition absolute_move (channel_index absolute_position : Z) : M unit :=
  let hold_time := 60000 in
  system_index <- get_system_index ;;
  r <- dll (SA_GotoPositionAbsolute_S
              (c_ulong system_index) (c_ulong channel_index)
              (c_long absolute_position) (c_ulong hold_time)) ;;
  if negb (status r =? 0) then
    close_communication ;;;
    raise (Exception Msg.goto_absolute)
  else ret tt.

Definition stop (channel_index : Z) : M unit :=
  system_index <- get_system_index ;;
  r <- dll (SA_Stop_S (c_ulong system_index) (c_ulong channel_index)) ;;
  if negb (status r =? 0) then
    close_communication ;;;
    raise (Exception Msg.stop)
  else ret tt.

(** [SmarAct.__init__], run on a freshly allocated object. *)
Definition __init__ : M unit :=
  set_self blank ;;;
  locator <- get_controller_locator ;;
  set_controller_locator locator ;;;
  locator <- get_controller_locator_attr ;;
  index <- init_communication locator ;;
  set_system_index index.

(** *** The public interface, one constructor per method *)
Inductive operation : Type :=
| Get_controller_locator
| Init_communication (controller_locator : str)
| Get_number_of_channels
| Close_communication
| Get_position (channel_index : Z)
| Find_reference (channel_index : Z)
| Relative_move (channel_index relative_position : Z)
| Absolute_move (channel_index absolute_position : Z)
| Stop (channel_index : Z).

(** What a method returns to its caller. *)
Inductive value : Type :=
| PyNone
| PyInt (n : Z)
| PyStr (s : str).

Definition returning {A} (inj : A -> value) (m : M A) : M value :=
  bind m (fun a => ret (inj a)).

Definition invoke (op : operation) : M value :=
  match op with
  | Get_controller_locator => returning PyStr get_controller_locator
  | Init_communication l => returning PyInt (init_communication l)
  | Get_number_of_channels => returning PyInt get_number_of_channels
  | Close_communication => returning (fun _ => PyNone) close_communication
  | Get_position c => returning PyInt (get_position c)
  | Find_reference c => returning (fun _ => PyNone) (find_reference c)
  | Relative_move c p => returning (fun _ => PyNone) (relative_move c p)
  | Absolute_move c p => returning (fun _ => PyNone) (absolute_move c p)
  | Stop c => returning (fun _ => PyNone) (stop c)
  end.

End Driver.

(** The operations that need an open session and close it when their own
    library call fails: all the methods but discovery, opening and closing. *)
Definition closes_on_failure (op : operation) : bool :=
  match op with
  | Get_controller_locator | Init_communication _ | Close_communication => false
  | _ => true
  end.

(** The message of the exception a method raises for its own library call. *)
Definition failure_message (op : operation) : string :=
  match op with
  | Get_controller_locator => Msg.find_systems
  | Init_communication _ => Msg.open_system
  | Get_number_of_channels => Msg.number_of_channels
  | Close_communication => Msg.close_system
  | Get_position _ => Msg.position
  | Find_reference _ => Msg.reference_mark
  | Relative_move _ _ => Msg.goto_relative
  | Absolute_move _ _ => Msg.goto_absolute
  | Stop _ => Msg.stop
  end.

(** The library calls made between two worlds. *)
Definition issued {D} (before after : World D) : list (call * reply) :=
  skipn (List.length (calls before)) (calls after).

(** ** Test transports *)

(** A transport that plays back a prepared list of answers, whatever it is
    asked; once the list is used up every call succeeds with empty
    outputs. *)
Module Scripted.

Definition ok : reply := {| status := 0; out_value := 0; out_buffer := [] |}.
Definition failing (code : Z) : reply :=
  {| status := code; out_value := 0; out_buffer := [] |}.
Definition yielding (v : Z) : reply :=
  {| status := 0; out_value := v; out_buffer := [] |}.

(** The enumeration buffer after the library wrote [written] at its
    start: the rest of the 4096 bytes keeps the spaces put there. *)
Definition filled (written : bytes) : reply :=
  {| status := 0; out_value := 0;
     out_buffer :=
       firstn 4096 (written ++ repeat space (4096 - List.length written)) |}.

Definition transport : Transport (list reply) :=
  fun _ script =>
    match script with
    | r :: rest => (r, rest)
    | [] => (ok, [])
    end.

Definition world (o : SmarAct) (script : list reply) : World (list reply) :=
  {| self := o; device := script; calls := []; stdout := [] |}.

(** An object as the constructor leaves it. *)
Definition session : SmarAct :=
  {| controller_locator := Some (text "usb:id:3118167233");
     system_index := Some 0 |}.

End Scripted.

(** A transport for one controller that executes every motion command
    exactly: a move sets the channel's position to the commanded one at
    once.  Positions are unbounded integers; a channel index out of range is
    refused with a non-zero status. *)
Module Ideal.

Record stage : Type := Stage {
  positions : list Z;
  opened : bool
}.

Definition invalid_channel : Z := 8.

Fixpoint set_nth (n : nat) (v : Z) (l : list Z) : list Z :=
  match n, l with
  | _, [] => []
  | O, _ :: t => v :: t
  | S k, x :: t => x :: set_nth k v t
  end.

Definition move (ch target : Z) (d : stage) : reply * stage :=
  if (0 <=? ch) && (ch <? Z.of_nat (List.length (positions d)))
  then (Scripted.ok,
        {| positions := set_nth (Z.to_nat ch) target (positions d);
           opened := opened d |})
  else (Scripted.failing invalid_channel, d).

Definition position (ch : Z) (d : stage) : option Z :=
  if 0 <=? ch then nth_error (positions d) (Z.to_nat ch) else None.

Definition transport : Transport stage :=
  fun c d =>
    match c with
    | SA_FindSystems _ _ _ =>
      (Scripted.filled (ascii_bytes "usb:id:3118167233"), d)
    | SA_OpenSystem _ _ =>
      (Scripted.ok, {| positions := positions d; opened := true |})
    | SA_CloseSystem _ =>
      (Scripted.ok, {| positions := positions d; opened := false |})
    | SA_GetNumberOfChannels _ =>
      (Scripted.yielding (Z.of_nat (List.length (positions d))), d)
    | SA_GetPosition_S _ ch =>
      match position ch d with
      | Some p => (Scripted.yielding p, d)
      | None => (Scripted.failing invalid_channel, d)
      end
    | SA_FindReferenceMark_S _ ch _ _ _ => move ch 0 d
    | SA_GotoPositionRelative_S _ ch diff _ =>
      match position ch d with
      | Some p => move ch (p + diff) d
      | None => (Scripted.failing invalid_channel, d)
      end
    | SA_GotoPositionAbsolute_S _ ch target _ => move ch target d
    | SA_Stop_S _ ch =>
      match position ch d with
      | Some p => move ch p d
      | None => (Scripted.failing invalid_channel, d)
      end
    end.

Definition world (ps : list Z) : World stage :=
  {| self := Scripted.session;
     device := {| positions := ps; opened := true |};
     calls := []; stdout := [] |}.

End Ideal.

(** * The vocabulary of the properties *)

(** [writes_nothing m]: running [m] leaves the attributes of the object as
    they were, whatever the outcome. *)
Definition writes_nothing {D A} (m : M (D := D) A) : Prop :=
  forall w, self (snd (m w)) = self w.

(** The first library call made between the two worlds came back with a
    non-zero status. *)
Definition failed_call {D} (before after : World D) : Prop :=
  exists c r rest, issued before after = (c, r) :: rest /\ status r <> 0.

(** The first library call failed, and so did the [SA_CloseSystem] that
    followed it. *)
Definition failed_close {D} (before after : World D) : Prop :=
  exists c r i rc rest,
    issued before after = (c, r) :: (SA_CloseSystem i, rc) :: rest /\
    status r <> 0 /\ status rc <> 0.

(** The arguments [get_controller_locator] passes to [SA_FindSystems]: an
    empty options string, a buffer of 4096 spaces, and its size. *)
Definition find_systems_call : call :=
  SA_FindSystems [nul] (repeat space 4096) 4096.

(** What [get_controller_locator] makes of the library's answer. *)
Definition locator_outcome (r : reply) : outcome str :=
  if status r =? 0 then
    match utf8_decode (out_buffer r) with
    | None => Raise UnicodeDecodeError
    | Some s =>
      match findall s with
      | [] => Raise (Exception Msg.no_controller)
      | first :: _ => Return first
      end
    end
  else Raise (Exception Msg.find_systems).

(** The text has a substring that matches the pattern. *)
Definition contains_match (s : str) : bool :=
  existsb (fun i => matches_at (skipn i s)) (seq 0 (List.length s)).

(** A transport executes motion exactly when, on every channel below the
    channel count it reports, the position query and the relative move are
    accepted and the position it reports after the move is the position it
    reported before plus the distance it was given. *)
Definition executes_motion {D} (T : Transport D) : Prop :=
  forall (d : D) (idx ch diff hold : Z),
    let count := fst (T (SA_GetNumberOfChannels idx) d) in
    let before := fst (T (SA_GetPosition_S idx ch) d) in
    let move := T (SA_GotoPositionRelative_S idx ch diff hold) d in
    let after := fst (T (SA_GetPosition_S idx ch) (snd move)) in
    status count = 0 -> 0 <= ch < c_ulong (out_value count) ->
    status before = 0 /\ status (fst move) = 0 /\ status after = 0 /\
    out_value after = out_value before + diff.

(** ** Scenarios *)

(** Sessions on the scripted transport. *)
Module Scenario.

Import Scripted.

(** A session on which the next library call is refused with [code] and
    the close that follows is accepted. *)
Definition refusing (code : Z) : World (list reply) :=
  world session [failing code].

(** A session on which the next library call is refused with [code] and
    the close that follows with [close_code]. *)
Definition refusing_twice (code close_code : Z) : World (list reply) :=
  world session [failing code; failing close_code].

(** The world the constructor leaves when discovery finds one controller
    and the library opens it under handle 0; the library will refuse the
    next call with status 17. *)
Definition constructed : World (list reply) :=
  snd (__init__ transport
         (world blank [filled (ascii_bytes "usb:id:3118167233");
                       yielding 0; failing 17])).

End Scenario.

(** Enumeration buffers on the scripted transport. *)
Module DiscoveryScenario.

Import Scripted.

(** The scenario of the specification: two locators in the buffer. *)
Definition two_controllers : bytes :=
  ascii_bytes "usb:id:3118167233 usb:id:9999999999".

(** An entry with an eleven-digit id. *)
Definition long_id : bytes := ascii_bytes "usb:id:31181672334".

(** A byte that is not UTF-8, alone and behind a locator. *)
Definition stray_byte : bytes := [Byte.xff].
Definition locator_then_stray_byte : bytes :=
  ascii_bytes "usb:id:3118167233" ++ [Byte.xff].

Definition discovering (written : bytes) : World (list reply) :=
  world blank [filled written].

Definition padding (written : bytes) : str :=
  repeat 32%N (4096 - List.length written).

End DiscoveryScenario.

(** ** Further vocabulary *)

(** The call is [SA_CloseSystem]. *)
Definition is_close (c : call) : bool :=
  match c with
  | SA_CloseSystem _ => true
  | _ => false
  end.

(** The first library call made between the two worlds came back with
    status zero. *)
Definition accepted_call {D} (before after : World D) : Prop :=
  exists c r rest, issued before after = (c, r) :: rest /\ status r = 0.

(** [prints_nothing m]: running [m] leaves the console as it was, whatever
    the outcome. *)
Definition prints_nothing {D A} (m : M (D := D) A) : Prop :=
  forall w, stdout (snd (m w)) = stdout w.

(** Constructions on the scripted transport: discovery finds one controller,
    then the library answers the opening with [opening]. *)
Module Lifecycle.

Import Scripted.

Definition found : bytes := ascii_bytes "usb:id:3118167233".

Definition constructing (opening : reply) : World (list reply) :=
  world blank [filled found; opening].

(** The decoded buffer of [constructing]. *)
Definition found_text : str :=
  text "usb:id:3118167233" ++ repeat 32%N (4096 - List.length found).

(** An enumeration that lists nothing. *)
Definition nothing : bytes := ascii_bytes "no controller".

Definition nothing_text : str :=
  text "no controller" ++ repeat 32%N (4096 - List.length nothing).

(** A session with handle 7 on which the library accepts everything and
    stores [v] through every pointer it is given. *)
Definition answering (v : Z) : World (list reply) :=
  world {| controller_locator := Some (text "usb:id:3118167233");
           system_index := Some 7 |}
        [yielding v; yielding v].

End Lifecycle.

(** * Properties *)

(** ** Arithmetic of the integer cells *)
Module CtypesFacts.

Lemma long_modulus_eq : long_modulus = 4294967296.
Proof. reflexivity. Qed.

Lemma c_long_id (v : Z) : in_c_long v -> c_long v = v.
Proof.
  unfold in_c_long, c_long. rewrite long_modulus_eq.
  change (4294967296 / 2) with 2147483648. intros H.
  rewrite Z.mod_small; lia.
Qed.

Lemma c_long_range (v : Z) : in_c_long (c_long v).
Proof.
  unfold in_c_long, c_long. rewrite long_modulus_eq.
  pose proof (Z.mod_pos_bound (v + 4294967296 / 2) 4294967296).
  change (4294967296 / 2) with 2147483648 in *. lia.
Qed.

Lemma c_long_add_l (a b : Z) : c_long (c_long a + b) = c_long (a + b).
Proof.
  unfold c_long. rewrite long_modulus_eq.
  change (4294967296 / 2) with 2147483648.
  f_equal.
  replace ((a + 2147483648) mod 4294967296 - 2147483648 + b + 2147483648)
    with ((a + 2147483648) mod 4294967296 + b) by lia.
  rewrite Zplus_mod_idemp_l. f_equal. lia.
Qed.

Lemma c_ulong_id (v : Z) : in_c_ulong v -> c_ulong v = v.
Proof.
  unfold in_c_ulong, c_ulong. intros H. apply Z.mod_small. exact H.
Qed.

Lemma c_ulong_range (v : Z) : in_c_ulong (c_ulong v).
Proof.
  unfold in_c_ulong, c_ulong. apply Z.mod_pos_bound. reflexivity.
Qed.

End CtypesFacts.

(** ** How a run extends the record of library calls *)
Section Runs.

Context {D : Type}.
Variable T : Transport D.

Lemma issued_app (w w' : World D) (evs : list (call * reply)) :
  calls w' = calls w ++ evs -> issued w w' = evs.
Proof.
  intros H. unfold issued. rewrite H.
  rewrite skipn_app, skipn_all, Nat.sub_diag. reflexivity.
Qed.

(** [close_communication] on an object that holds a handle: one
    [SA_CloseSystem] on that handle, and an exception exactly when the
    library refuses. *)
Lemma close_communication_run (w : World D) (idx : Z) :
  system_index (self w) = Some idx ->
  forall rc d,
    T (SA_CloseSystem (c_ulong idx)) (device w) = (rc, d) ->
    close_communication T w =
    (if status rc =? 0 then Return tt
     else Raise (Exception Msg.close_system),
     {| self := self w; device := d;
        calls := calls w ++ [(SA_CloseSystem (c_ulong idx), rc)];
        stdout := stdout w |}).
Proof.
  intros Hidx rc d E.
  unfold close_communication, bind, get_system_index, dll.
  rewrite Hidx, E. simpl. destruct (status rc =? 0); reflexivity.
Qed.

(** The shape of every run of an operation that needs the open session:
    one library call [c]; when it succeeds the method returns; when it
    fails, [SA_CloseSystem] is called on the stored handle and an exception
    is raised: the method's own when the close succeeds, the one of
    [close_communication] otherwise.  The object is never written. *)
Lemma session_operation_run (op : operation) (w : World D) (idx : Z) :
  closes_on_failure op = true ->
  system_index (self w) = Some idx ->
  exists c : call,
    forall r d1, T c (device w) = (r, d1) ->
    forall rc d2, T (SA_CloseSystem (c_ulong idx)) d1 = (rc, d2) ->
      if status r =? 0 then
        exists v out,
          invoke T op w =
          (Return v,
           {| self := self w; device := d1;
              calls := calls w ++ [(c, r)]; stdout := out |})
      else
        invoke T op w =
        (Raise (Exception (if status rc =? 0 then failure_message op
                           else Msg.close_system)),
         {| self := self w; device := d2;
            calls := calls w ++ [(c, r); (SA_CloseSystem (c_ulong idx), rc)];
            stdout := stdout w |}).
Proof.
  intros Hop Hidx.
  destruct op; try discriminate Hop; clear Hop;
    eexists; intros r d1 E1 rc d2 E2;
    destruct (status r =? 0) eqn:Hs;
    simpl invoke;
    unfold returning, get_number_of_channels, get_position, find_reference,
      relative_move, absolute_move, stop, close_communication,
      bind, get_system_index, dll, print, ret, raise;
    cbn; rewrite Hidx; cbn; rewrite E1; cbn; rewrite Hs; cbn;
    try (do 2 eexists; reflexivity);
    rewrite Hidx; cbn; rewrite E2; cbn; rewrite <- app_assoc; cbn;
    destruct (status rc =? 0); reflexivity.
Qed.

End Runs.

(** ** Writes to the object *)
Create HintDb frame.

Section Frame.

Context {D : Type}.
Variable T : Transport D.

Lemma ret_writes_nothing {A} (a : A) : writes_nothing (D := D) (ret a).
Proof. intros w. reflexivity. Qed.

Lemma raise_writes_nothing {A} (e : exn) :
  writes_nothing (D := D) (raise (A := A) e).
Proof. intros w. reflexivity. Qed.

Lemma bind_writes_nothing {A B} (m : M A) (k : A -> M B) :
  writes_nothing (D := D) m -> (forall a, writes_nothing (D := D) (k a)) ->
  writes_nothing (D := D) (bind m k).
Proof.
  intros Hm Hk w. unfold bind. specialize (Hm w).
  destruct (m w) as [[a | e] w']; simpl in *.
  - rewrite Hk. exact Hm.
  - exact Hm.
Qed.

Lemma dll_writes_nothing (c : call) : writes_nothing (dll T c).
Proof. intros w. unfold dll. destruct (T c (device w)). reflexivity. Qed.

Lemma print_writes_nothing (line : string) :
  writes_nothing (D := D) (print line).
Proof. intros w. reflexivity. Qed.

Lemma get_system_index_writes_nothing :
  writes_nothing (D := D) get_system_index.
Proof.
  intros w. unfold get_system_index.
  destruct (system_index (self w)); reflexivity.
Qed.

Lemma decode_writes_nothing (b : bytes) : writes_nothing (D := D) (decode b).
Proof. intros w. unfold decode. destruct (utf8_decode b); reflexivity. Qed.

Lemma encode_ascii_writes_nothing (s : str) :
  writes_nothing (D := D) (encode_ascii s).
Proof.
  intros w. unfold encode_ascii. destruct (ascii_encode s); reflexivity.
Qed.

Lemma if_writes_nothing {A} (b : bool) (m1 m2 : M A) :
  writes_nothing (D := D) m1 -> writes_nothing (D := D) m2 ->
  writes_nothing (D := D) (if b then m1 else m2).
Proof. destruct b; auto. Qed.

Hint Resolve ret_writes_nothing raise_writes_nothing dll_writes_nothing
  print_writes_nothing get_system_index_writes_nothing
  decode_writes_nothing encode_ascii_writes_nothing : frame.

Ltac frame :=
  repeat first
    [ apply bind_writes_nothing; [ | intro ]
    | apply if_writes_nothing
    | solve [ auto with frame ] ].

Lemma close_communication_writes_nothing :
  writes_nothing (close_communication T).
Proof. unfold close_communication. frame. Qed.

Hint Resolve close_communication_writes_nothing : frame.

Lemma get_controller_locator_writes_nothing :
  writes_nothing (get_controller_locator T).
Proof.
  unfold get_controller_locator. frame.
  destruct (findall _); auto with frame.
Qed.

Lemma invoke_writes_nothing (op : operation) : writes_nothing (invoke T op).
Proof.
  destruct op; simpl; unfold returning;
    apply bind_writes_nothing; auto with frame;
    try apply get_controller_locator_writes_nothing;
    unfold init_communication, get_number_of_channels, get_position,
      find_reference, relative_move, absolute_move, stop;
    frame.
Qed.

End Frame.

(** ** Failures of the library calls *)

Section Failures.

Context {D : Type}.
Variable T : Transport D.

Lemma issued_same (w w' : World D) : calls w' = calls w -> issued w w' = [].
Proof.
  intros H. apply issued_app. rewrite H, app_nil_r. reflexivity.
Qed.

(** A run that finds no handle on the object asks nothing of the
    library. *)
Lemma no_handle_no_call (op : operation) (w : World D) :
  closes_on_failure op = true \/ op = Close_communication ->
  system_index (self w) = None ->
  issued w (snd (invoke T op w)) = [].
Proof.
  intros Hop Hidx. apply issued_same.
  destruct Hop as [Hop | ->]; [ destruct op; try discriminate Hop | ];
    simpl invoke;
    unfold returning, get_number_of_channels, get_position, find_reference,
      relative_move, absolute_move, stop, close_communication,
      bind, get_system_index;
    rewrite Hidx; reflexivity.
Qed.

(** The runs of a session operation whose library call fails. *)
Lemma failed_session_operation (op : operation) (w : World D) :
  closes_on_failure op = true ->
  failed_call w (snd (invoke T op w)) ->
  exists idx c r rc d,
    system_index (self w) = Some idx /\
    status r <> 0 /\
    invoke T op w =
    (Raise (Exception (if status rc =? 0 then failure_message op
                       else Msg.close_system)),
     {| self := self w; device := d;
        calls := calls w ++ [(c, r); (SA_CloseSystem (c_ulong idx), rc)];
        stdout := stdout w |}).
Proof.
  intros Hop (c0 & r0 & rest & Hiss & Hst).
  destruct (system_index (self w)) as [idx |] eqn:Hidx.
  - destruct (session_operation_run T op w idx Hop Hidx) as [c Hrun].
    destruct (T c (device w)) as [r d1] eqn:E1.
    destruct (T (SA_CloseSystem (c_ulong idx)) d1) as [rc d2] eqn:E2.
    specialize (Hrun r d1 eq_refl rc d2 E2).
    destruct (status r =? 0) eqn:Hs.
    + destruct Hrun as (v & out & Hrun). rewrite Hrun in Hiss.
      cbn [snd] in Hiss.
      erewrite issued_app in Hiss by (cbn; reflexivity).
      injection Hiss as Hc Hr Hrest. subst r0.
      apply Z.eqb_eq in Hs. contradiction.
    + exists idx, c, r, rc, d2. repeat split; try assumption.
      apply Z.eqb_neq. exact Hs.
  - rewrite no_handle_no_call in Hiss by auto. discriminate Hiss.
Qed.

End Failures.

(** ** Discovery as a function of the library's answer *)

Section Discovery.

Context {D : Type}.
Variable T : Transport D.

Lemma get_controller_locator_run (w : World D) (r : reply) (d : D) :
  T find_systems_call (device w) = (r, d) ->
  get_controller_locator T w =
  (locator_outcome r,
   {| self := self w; device := d;
      calls := calls w ++ [(find_systems_call, r)];
      stdout := stdout w |}).
Proof.
  intros E.
  unfold get_controller_locator, locator_outcome, bind, dll, decode.
  change (SA_FindSystems [nul] (repeat space 4096) (c_ulong (Z.of_nat 4096)))
    with find_systems_call.
  rewrite E. destruct (status r =? 0); cbn [negb]; [ | reflexivity ].
  destruct (utf8_decode (out_buffer r)) as [s |]; [ | reflexivity ].
  unfold ret. destruct (findall s); reflexivity.
Qed.

Lemma init_communication_run (w : World D) (l : str) (b : bytes) r d :
  ascii_encode l = Some b ->
  T (SA_OpenSystem b (ascii_bytes "sync")) (device w) = (r, d) ->
  init_communication T l w =
  (if status r =? 0 then Return (c_ulong (out_value r))
   else Raise (Exception Msg.open_system),
   {| self := self w; device := d;
      calls := calls w ++ [(SA_OpenSystem b (ascii_bytes "sync"), r)];
      stdout := stdout w |}).
Proof.
  intros Eb E. unfold init_communication, bind, encode_ascii, dll.
  rewrite Eb. unfold ret at 1. rewrite E.
  destruct (status r =? 0); reflexivity.
Qed.

Lemma init_communication_unencodable (w : World D) (l : str) :
  ascii_encode l = None ->
  init_communication T l w = (Raise UnicodeEncodeError, w).
Proof.
  intros Eb. unfold init_communication, bind, encode_ascii.
  rewrite Eb. reflexivity.
Qed.

(** The runs of the three operations that do not close the session on
    failure, when their library call fails. *)
Lemma failed_plain_operation (op : operation) (w : World D) :
  closes_on_failure op = false ->
  failed_call w (snd (invoke T op w)) ->
  exists c r,
    status r <> 0 /\
    fst (invoke T op w) = Raise (Exception (failure_message op)) /\
    calls (snd (invoke T op w)) = calls w ++ [(c, r)].
Proof.
  intros Hop (c0 & r0 & rest & Hiss & Hst).
  destruct op as [ | l | | | ch | ch | ch p | ch p | ch ];
    try discriminate Hop; simpl invoke in *;
    unfold returning, bind in *.
  - destruct (T find_systems_call (device w)) as [r d] eqn:E.
    rewrite (get_controller_locator_run w r d E) in *.
    assert (Hr : r0 = r).
    { destruct (locator_outcome r); cbn [snd ret] in Hiss;
        erewrite issued_app in Hiss by (cbn; reflexivity);
        congruence. }
    subst r0. exists find_systems_call, r.
    unfold locator_outcome in *. apply Z.eqb_neq in Hst as Hs.
    rewrite Hs. cbn. auto.
  - destruct (ascii_encode l) as [b |] eqn:Eb.
    + destruct (T (SA_OpenSystem b (ascii_bytes "sync")) (device w))
        as [r d] eqn:E.
      rewrite (init_communication_run w l b r d Eb E) in *.
      assert (Hr : r0 = r).
      { destruct (status r =? 0); cbn [snd ret] in Hiss;
          erewrite issued_app in Hiss by (cbn; reflexivity);
          congruence. }
      subst r0. exists (SA_OpenSystem b (ascii_bytes "sync")), r.
      apply Z.eqb_neq in Hst as Hs. rewrite Hs. cbn. auto.
    + rewrite (init_communication_unencodable w l Eb) in Hiss.
      cbn [snd] in Hiss. rewrite issued_same in Hiss by reflexivity.
      discriminate Hiss.
  - destruct (system_index (self w)) as [idx |] eqn:Hidx.
    + destruct (T (SA_CloseSystem (c_ulong idx)) (device w))
        as [r d] eqn:E.
      rewrite (close_communication_run T w idx Hidx r d E) in *.
      assert (Hr : r0 = r).
      { destruct (status r =? 0); cbn [snd ret] in Hiss;
          erewrite issued_app in Hiss by (cbn; reflexivity);
          congruence. }
      subst r0. exists (SA_CloseSystem (c_ulong idx)), r.
      apply Z.eqb_neq in Hst as Hs. rewrite Hs. cbn. auto.
    + pose proof (no_handle_no_call T Close_communication w
                    (or_intror eq_refl) Hidx) as Hnone.
      simpl invoke in Hnone. unfold returning, bind in Hnone.
      rewrite Hnone in Hiss. discriminate Hiss.
Qed.

End Discovery.

(** ** What the caller sees of a failed library call *)
Section Claims.

Context {D : Type}.
Variable T : Transport D.

(** C1 (as amended).  Whenever the library call of an operation comes back
    with a non-zero status, the operation raises: no such status is taken
    for a success.  What is raised is the base class [Exception] with a
    fixed message that names the library function that failed: the
    operation's own, or [SA_CloseSystem] when the operation closes the
    session on failure and that close is refused as well.  The message is
    all the exception carries. *)
Theorem failed_call_raises (op : operation) (w : World D) :
  failed_call w (snd (invoke T op w)) ->
  (closes_on_failure op = false ->
   fst (invoke T op w) = Raise (Exception (failure_message op))) /\
  (closes_on_failure op = true ->
   exists i rc,
     In (SA_CloseSystem i, rc) (issued w (snd (invoke T op w))) /\
     fst (invoke T op w) =
     Raise (Exception (if status rc =? 0 then failure_message op
                       else Msg.close_system))).
Proof.
  intros Hfail. split; intros Hop.
  - destruct (failed_plain_operation T op w Hop Hfail)
      as (c & r & _ & Hres & _).
    exact Hres.
  - destruct (failed_session_operation T op w Hop Hfail)
      as (idx & c & r & rc & d & Hidx & Hst & Hrun).
    exists (c_ulong idx), rc. rewrite Hrun. cbn [fst snd]. split.
    + erewrite issued_app by (cbn; reflexivity). right. left. reflexivity.
    + reflexivity.
Qed.

(** C2.  When the library call of an operation that needs the open
    session fails, [SA_CloseSystem] is called on the stored handle right
    after the failed call, and only then is the exception raised. *)
Theorem failure_closes_session (op : operation) (w : World D) (idx : Z) :
  closes_on_failure op = true ->
  system_index (self w) = Some idx ->
  failed_call w (snd (invoke T op w)) ->
  exists c r rc,
    status r <> 0 /\
    calls (snd (invoke T op w)) =
    calls w ++ [(c, r); (SA_CloseSystem (c_ulong idx), rc)] /\
    is_raise (fst (invoke T op w)) = true.
Proof.
  intros Hop Hidx Hfail.
  destruct (failed_session_operation T op w Hop Hfail)
    as (idx' & c & r & rc & d & Hidx' & Hst & Hrun).
  assert (idx' = idx) by congruence. subst idx'.
  exists c, r, rc. rewrite Hrun. cbn. auto.
Qed.

(** C3 (as amended).  When the library call of an operation that needs the
    open session fails and the close that follows fails too, the caller
    receives the exception of [close_communication] alone; it differs from
    the operation's own exception, which is never raised. *)
Theorem failed_close_replaces_failure (op : operation) (w : World D) :
  closes_on_failure op = true ->
  failed_close w (snd (invoke T op w)) ->
  fst (invoke T op w) = Raise (Exception Msg.close_system) /\
  Exception Msg.close_system <> Exception (failure_message op).
Proof.
  intros Hop (c0 & r0 & i0 & rc0 & rest & Hiss & Hst & Hstc).
  assert (Hfail : failed_call w (snd (invoke T op w))).
  { exists c0, r0, ((SA_CloseSystem i0, rc0) :: rest). auto. }
  destruct (failed_session_operation T op w Hop Hfail)
    as (idx & c & r & rc & d & Hidx & _ & Hrun).
  rewrite Hrun in *. cbn [fst snd] in *.
  erewrite issued_app in Hiss by (cbn; reflexivity).
  injection Hiss as _ _ _ Hrc _. subst rc0.
  apply Z.eqb_neq in Hstc. rewrite Hstc. split; [ reflexivity | ].
  destruct op; try discriminate Hop; discriminate.
Qed.

(** C5.  [find_reference] asks the library for a reference search with
    direction 0 (forward), hold time 60000 and auto-zero 1, whatever the
    channel and the handle; it is the only such request of the run. *)
Theorem find_reference_parameters (channel_index : Z) (w : World D) (idx : Z) :
  system_index (self w) = Some idx ->
  exists r rest,
    issued w (snd (find_reference T channel_index w)) =
    (SA_FindReferenceMark_S (c_ulong idx) (c_ulong channel_index) 0 60000 1, r)
      :: rest /\
    (rest = [] \/ exists rc, rest = [(SA_CloseSystem (c_ulong idx), rc)]).
Proof.
  intros Hidx.
  unfold find_reference, bind, get_system_index at 1, dll at 1, print.
  rewrite Hidx.
  change (c_ulong 0) with 0. change (c_ulong 60000) with 60000.
  change (c_ulong 1) with 1.
  destruct (T _ (device w)) as [r d1] eqn:E1.
  destruct (status r =? 0); cbn [negb].
  - exists r, []. split; [ | left; reflexivity ].
    apply issued_app. reflexivity.
  - destruct (T (SA_CloseSystem (c_ulong idx)) d1) as [rc d2] eqn:E2.
    erewrite close_communication_run by (cbn; eauto).
    exists r, [(SA_CloseSystem (c_ulong idx), rc)].
    split; [ | right; eauto ].
    apply issued_app. destruct (status rc =? 0); cbn;
      rewrite <- app_assoc; reflexivity.
Qed.

(** C7 (as amended).  The object has two attributes, the locator and the
    handle, and no record of being open or closed.  After the library call
    of an operation that needs the open session has failed, the object is
    as it was, the handle included; that the session was closed shows only
    in the library, which received [SA_CloseSystem] for that handle as the
    last call of the run. *)
Theorem failure_leaves_no_closed_mark (op : operation) (w : World D) (idx : Z) :
  closes_on_failure op = true ->
  system_index (self w) = Some idx ->
  failed_call w (snd (invoke T op w)) ->
  self (snd (invoke T op w)) = self w /\
  system_index (self (snd (invoke T op w))) = Some idx /\
  exists earlier rc,
    calls (snd (invoke T op w)) =
    earlier ++ [(SA_CloseSystem (c_ulong idx), rc)].
Proof.
  intros Hop Hidx Hfail.
  pose proof (invoke_writes_nothing T op w) as Hself.
  split; [ exact Hself | ]. split; [ rewrite Hself; exact Hidx | ].
  destruct (failed_session_operation T op w Hop Hfail)
    as (idx' & c & r & rc & d & Hidx' & Hst & Hrun).
  assert (idx' = idx) by congruence. subst idx'.
  exists (calls w ++ [(c, r)]), rc. rewrite Hrun. cbn [snd calls].
  rewrite <- app_assoc. reflexivity.
Qed.

(** C8.  No method called on the constructed object writes to it: after
    every operation, returning or raising, [controller_locator] and
    [system_index] are what they were.  In particular the stored handle
    outlives [close_communication] and the close made on a failure. *)
Theorem operations_keep_attributes (op : operation) (w : World D) :
  self (snd (invoke T op w)) = self w /\
  controller_locator (self (snd (invoke T op w))) =
    controller_locator (self w) /\
  system_index (self (snd (invoke T op w))) = system_index (self w).
Proof.
  pose proof (invoke_writes_nothing T op w) as Hself.
  rewrite Hself. auto.
Qed.

End Claims.

(** C1, witness: [stop] on channel 2 refused with status 17. *)
Lemma failed_call_raises_witness :
  failed_call (Scenario.refusing 17)
    (snd (invoke Scripted.transport (Stop 2) (Scenario.refusing 17))) /\
  exists i rc,
    In (SA_CloseSystem i, rc)
       (issued (Scenario.refusing 17)
          (snd (invoke Scripted.transport (Stop 2) (Scenario.refusing 17)))) /\
    fst (invoke Scripted.transport (Stop 2) (Scenario.refusing 17)) =
    Raise (Exception (if status rc =? 0 then failure_message (Stop 2)
                      else Msg.close_system)).
Proof.
  assert (H : failed_call (Scenario.refusing 17)
                (snd (invoke Scripted.transport (Stop 2) (Scenario.refusing 17)))).
  { exists (SA_Stop_S 0 2), (Scripted.failing 17),
      [(SA_CloseSystem 0, Scripted.ok)].
    split; [ reflexivity | discriminate ]. }
  split; [ exact H | ].
  exact (proj2 (failed_call_raises Scripted.transport (Stop 2)
                  (Scenario.refusing 17) H) eq_refl).
Defined.

(** C1, counterexample: [stop] refused with status 17 and [stop] refused
    with status 18 raise the same exception, [Exception('SmarAct SA_Stop
    failed')]; nothing computed from the exception gives back the status. *)
Lemma status_code_not_carried :
  fst (invoke Scripted.transport (Stop 2) (Scenario.refusing 17)) =
    Raise (Exception "SmarAct SA_Stop failed") /\
  ~ exists code_of : exn -> Z,
      forall code e, code <> 0 ->
        fst (invoke Scripted.transport (Stop 2) (Scenario.refusing code))
          = Raise e ->
        code_of e = code.
Proof.
  split; [ reflexivity | ].
  intros [code_of H].
  pose proof (H 17 (Exception Msg.stop) ltac:(discriminate) eq_refl) as H17.
  pose proof (H 18 (Exception Msg.stop) ltac:(discriminate) eq_refl) as H18.
  rewrite H17 in H18. discriminate H18.
Qed.

(** C2, witness: [stop] on channel 2 refused with status 17. *)
Lemma failure_closes_session_witness :
  closes_on_failure (Stop 2) = true /\
  system_index (self (Scenario.refusing 17)) = Some 0 /\
  failed_call (Scenario.refusing 17)
    (snd (invoke Scripted.transport (Stop 2) (Scenario.refusing 17))) /\
  exists c r rc,
    status r <> 0 /\
    calls (snd (invoke Scripted.transport (Stop 2) (Scenario.refusing 17))) =
    calls (Scenario.refusing 17)
      ++ [(c, r); (SA_CloseSystem (c_ulong 0), rc)] /\
    is_raise (fst (invoke Scripted.transport (Stop 2) (Scenario.refusing 17)))
      = true.
Proof.
  assert (H : failed_call (Scenario.refusing 17)
                (snd (invoke Scripted.transport (Stop 2) (Scenario.refusing 17)))).
  { exists (SA_Stop_S 0 2), (Scripted.failing 17),
      [(SA_CloseSystem 0, Scripted.ok)].
    split; [ reflexivity | discriminate ]. }
  split; [ reflexivity | ]. split; [ reflexivity | ]. split; [ exact H | ].
  exact (failure_closes_session Scripted.transport (Stop 2)
           (Scenario.refusing 17) 0 eq_refl eq_refl H).
Defined.

(** C3, witness: [get_position] refused with status 5, the close with 7. *)
Lemma failed_close_replaces_failure_witness :
  closes_on_failure (Get_position 0) = true /\
  failed_close (Scenario.refusing_twice 5 7)
    (snd (invoke Scripted.transport (Get_position 0)
            (Scenario.refusing_twice 5 7))) /\
  fst (invoke Scripted.transport (Get_position 0)
         (Scenario.refusing_twice 5 7))
    = Raise (Exception Msg.close_system) /\
  Exception Msg.close_system <> Exception (failure_message (Get_position 0)).
Proof.
  assert (H : failed_close (Scenario.refusing_twice 5 7)
                (snd (invoke Scripted.transport (Get_position 0)
                        (Scenario.refusing_twice 5 7)))).
  { exists (SA_GetPosition_S 0 0), (Scripted.failing 5), 0,
      (Scripted.failing 7), [].
    split; [ reflexivity | split; discriminate ]. }
  split; [ reflexivity | ]. split; [ exact H | ].
  exact (failed_close_replaces_failure Scripted.transport (Get_position 0)
           (Scenario.refusing_twice 5 7) eq_refl H).
Defined.

(** C3, counterexample: with the operation refused (status 5) and the close
    refused (status 7), [get_position] and [stop] both raise
    [Exception('SmarAct SA_CloseSystem failed')] and nothing else; what the
    caller receives does not tell which operation failed first. *)
Lemma original_failure_not_reported :
  fst (invoke Scripted.transport (Get_position 0)
         (Scenario.refusing_twice 5 7))
    = Raise (Exception "SmarAct SA_CloseSystem failed") /\
  ~ exists original_of : exn -> string,
      forall op e, closes_on_failure op = true ->
        fst (invoke Scripted.transport op (Scenario.refusing_twice 5 7))
          = Raise e ->
        original_of e = failure_message op.
Proof.
  split; [ reflexivity | ].
  intros [original_of H].
  pose proof (H (Get_position 0) (Exception Msg.close_system)
                eq_refl eq_refl) as Hp.
  pose proof (H (Stop 0) (Exception Msg.close_system) eq_refl eq_refl) as Hs.
  rewrite Hp in Hs. discriminate Hs.
Qed.

(** C5, witness: [find_reference] on channel 1 of a session with handle 0. *)
Lemma find_reference_parameters_witness :
  system_index (self (Scripted.world Scripted.session [])) = Some 0 /\
  exists r rest,
    issued (Scripted.world Scripted.session [])
      (snd (find_reference Scripted.transport 1
              (Scripted.world Scripted.session []))) =
    (SA_FindReferenceMark_S (c_ulong 0) (c_ulong 1) 0 60000 1, r) :: rest /\
    (rest = [] \/ exists rc, rest = [(SA_CloseSystem (c_ulong 0), rc)]).
Proof.
  split; [ reflexivity | ].
  exact (find_reference_parameters Scripted.transport 1
           (Scripted.world Scripted.session []) 0 eq_refl).
Defined.

(** C7, witness: [stop] on channel 2 refused with status 17. *)
Lemma failure_leaves_no_closed_mark_witness :
  closes_on_failure (Stop 2) = true /\
  system_index (self (Scenario.refusing 17)) = Some 0 /\
  failed_call (Scenario.refusing 17)
    (snd (invoke Scripted.transport (Stop 2) (Scenario.refusing 17))) /\
  self (snd (invoke Scripted.transport (Stop 2) (Scenario.refusing 17)))
    = self (Scenario.refusing 17) /\
  system_index
    (self (snd (invoke Scripted.transport (Stop 2) (Scenario.refusing 17))))
    = Some 0 /\
  exists earlier rc,
    calls (snd (invoke Scripted.transport (Stop 2) (Scenario.refusing 17))) =
    earlier ++ [(SA_CloseSystem (c_ulong 0), rc)].
Proof.
  assert (H : failed_call (Scenario.refusing 17)
                (snd (invoke Scripted.transport (Stop 2) (Scenario.refusing 17)))).
  { exists (SA_Stop_S 0 2), (Scripted.failing 17),
      [(SA_CloseSystem 0, Scripted.ok)].
    split; [ reflexivity | discriminate ]. }
  split; [ reflexivity | ]. split; [ reflexivity | ]. split; [ exact H | ].
  exact (failure_leaves_no_closed_mark Scripted.transport (Stop 2)
           (Scenario.refusing 17) 0 eq_refl eq_refl H).
Defined.

(** C7, counterexample: the constructor opens a session, then [stop] on
    channel 2 is refused with status 17.  The object after the failure is the
    object before it, so no boolean read off the object says open before and
    closed after. *)
Lemma no_closed_state_on_object :
  self Scenario.constructed = Scripted.session /\
  is_raise (fst (invoke Scripted.transport (Stop 2) Scenario.constructed))
    = true /\
  ~ exists is_open : SmarAct -> bool,
      is_open (self Scenario.constructed) = true /\
      is_open
        (self (snd (invoke Scripted.transport (Stop 2) Scenario.constructed)))
        = false.
Proof.
  split; [ vm_compute; reflexivity | ].
  split; [ vm_compute; reflexivity | ].
  intros (is_open & Hbefore & Hafter).
  rewrite (invoke_writes_nothing Scripted.transport (Stop 2)
             Scenario.constructed) in Hafter.
  rewrite Hbefore in Hafter. discriminate Hafter.
Qed.

(** ** Motion on a transport that executes it exactly *)

Module IdealFacts.

Import Ideal.

Lemma set_nth_length (n : nat) (v : Z) (l : list Z) :
  List.length (set_nth n v l) = List.length l.
Proof.
  revert n. induction l as [| x t IH]; intros [| k]; simpl; auto.
Qed.

Lemma nth_error_set_nth (n : nat) (v : Z) (l : list Z) :
  (n < List.length l)%nat -> nth_error (set_nth n v l) n = Some v.
Proof.
  revert n. induction l as [| x t IH]; intros [| k] H; simpl in *;
    try lia; auto.
  apply IH. lia.
Qed.

Lemma position_in_range (ch : Z) (d : stage) :
  0 <= ch < Z.of_nat (List.length (positions d)) ->
  exists p, position ch d = Some p.
Proof.
  intros H. unfold position.
  destruct (Z.leb_spec 0 ch); [ | lia ].
  destruct (nth_error (positions d) (Z.to_nat ch)) as [p |] eqn:E.
  - eauto.
  - apply nth_error_None in E. lia.
Qed.

Lemma transport_executes_motion : executes_motion transport.
Proof.
  intros d idx ch diff hold count before move after Hcount Hch.
  subst count before move after. cbn in Hch.
  assert (Hin : 0 <= ch < Z.of_nat (List.length (positions d))).
  { unfold c_ulong in Hch.
    pose proof (Z.mod_le (Z.of_nat (List.length (positions d)))
                  long_modulus ltac:(lia) ltac:(reflexivity)).
    lia. }
  destruct (position_in_range ch d Hin) as [p Hp].
  cbn [transport]. rewrite Hp. unfold move.
  destruct (Z.leb_spec 0 ch); [ | lia ].
  destruct (Z.ltb_spec ch (Z.of_nat (List.length (positions d)))); [ | lia ].
  cbn [andb fst snd].
  assert (Hafter :
            position ch
              {| positions := set_nth (Z.to_nat ch) (p + diff) (positions d);
                 opened := opened d |} = Some (p + diff)).
  { unfold position. cbn [positions].
    destruct (Z.leb_spec 0 ch); [ | lia ].
    apply nth_error_set_nth. lia. }
  rewrite Hafter. cbn. auto.
Qed.

End IdealFacts.

Section Motion.

Context {D : Type}.
Variable T : Transport D.
Hypothesis ideal : executes_motion T.

(** C6 (as amended).  On a transport that executes motion exactly, for a
    channel below the channel count, a distance that fits the library's
    32-bit signed [long] and a prior position that stays within that range
    when the distance is added: [relative_move] returns, and [get_position]
    then returns the prior position plus the distance. *)
Theorem relative_move_then_get_position
  (w : World D) (n channel_index relative_position prior : Z) :
  fst (get_number_of_channels T w) = Return n ->
  0 <= channel_index < n ->
  fst (get_position T channel_index w) = Return prior ->
  in_c_long relative_position ->
  in_c_long (prior + relative_position) ->
  exists w1,
    relative_move T channel_index relative_position w = (Return tt, w1) /\
    fst (get_position T channel_index w1)
      = Return (prior + relative_position).
Proof.
  intros Hcount Hch Hprior Hdelta Hsum.
  destruct (system_index (self w)) as [idx |] eqn:Hidx;
    [ | unfold get_number_of_channels, bind, get_system_index in Hcount;
        rewrite Hidx in Hcount; discriminate Hcount ].
  pose proof (ideal (device w) (c_ulong idx) channel_index
                relative_position 60000) as H.
  cbv zeta in H.
  (* the channel count *)
  unfold get_number_of_channels, bind, get_system_index, dll in Hcount.
  rewrite Hidx in Hcount.
  destruct (T (SA_GetNumberOfChannels (c_ulong idx)) (device w))
    as [rn dn] eqn:En.
  cbn [fst] in H.
  destruct (status rn =? 0) eqn:Hsn; cbn [negb] in Hcount.
  2: { destruct (close_communication T _) as [[[] | e] w']; discriminate. }
  cbn in Hcount. injection Hcount as Hn. subst n.
  apply Z.eqb_eq in Hsn.
  destruct (H Hsn Hch) as (Hsb & Hsm & Hsa & Hval). clear H.
  assert (Hchannel : c_ulong channel_index = channel_index).
  { apply CtypesFacts.c_ulong_id.
    pose proof (CtypesFacts.c_ulong_range (out_value rn)).
    unfold in_c_ulong in *. lia. }
  (* the position before the move *)
  unfold get_position at 1, bind, get_system_index, dll in Hprior.
  rewrite Hidx, Hchannel in Hprior.
  destruct (T (SA_GetPosition_S (c_ulong idx) channel_index) (device w))
    as [rp dp] eqn:Ep.
  cbn [fst] in Hsb, Hval. apply Z.eqb_eq in Hsb as Hsb'.
  rewrite Hsb' in Hprior. cbn in Hprior. injection Hprior as Hp.
  (* the move *)
  unfold relative_move, bind, get_system_index at 1, dll at 1.
  rewrite Hidx, Hchannel, (CtypesFacts.c_long_id _ Hdelta).
  change (c_ulong 60000) with 60000.
  destruct (T (SA_GotoPositionRelative_S (c_ulong idx) channel_index
                 relative_position 60000) (device w)) as [rm dm] eqn:Em.
  cbn [fst snd] in Hsm, Hsa, Hval. apply Z.eqb_eq in Hsm as Hsm'.
  rewrite Hsm'. cbn [negb]. eexists. split; [ reflexivity | ].
  (* the position after the move *)
  unfold get_position, bind, get_system_index, dll.
  cbn -[c_ulong c_long]. rewrite Hidx.
  cbn -[c_ulong c_long]. rewrite Hchannel.
  destruct (T (SA_GetPosition_S (c_ulong idx) channel_index) dm)
    as [ra da] eqn:Ea.
  cbn [fst] in Hsa, Hval. apply Z.eqb_eq in Hsa as Hsa'.
  rewrite Hsa'. cbn. f_equal.
  rewrite Hval, <- CtypesFacts.c_long_add_l, Hp.
  apply CtypesFacts.c_long_id. exact Hsum.
Qed.

End Motion.

(** C6, witness: the scenario of the specification, channel 0 at position
    1000 moved by -500. *)
Lemma relative_move_then_get_position_witness :
  executes_motion Ideal.transport /\
  fst (get_number_of_channels Ideal.transport (Ideal.world [1000])) = Return 1 /\
  0 <= 0 < 1 /\
  fst (get_position Ideal.transport 0 (Ideal.world [1000])) = Return 1000 /\
  in_c_long (-500) /\
  in_c_long (1000 + -500) /\
  exists w1,
    relative_move Ideal.transport 0 (-500) (Ideal.world [1000])
      = (Return tt, w1) /\
    fst (get_position Ideal.transport 0 w1) = Return (1000 + -500).
Proof.
  split; [ exact IdealFacts.transport_executes_motion | ].
  split; [ reflexivity | ].
  split; [ lia | ].
  split; [ reflexivity | ].
  assert (H1 : in_c_long (-500))
    by (vm_compute; split; [ discriminate | reflexivity ]).
  assert (H2 : in_c_long (1000 + -500))
    by (vm_compute; split; [ discriminate | reflexivity ]).
  split; [ exact H1 | ]. split; [ exact H2 | ].
  exact (relative_move_then_get_position Ideal.transport
           IdealFacts.transport_executes_motion (Ideal.world [1000])
           1 0 (-500) 1000 eq_refl ltac:(lia) eq_refl H1 H2).
Defined.

(** C6, counterexample: on the exact transport, channel 0 of 1 at position
    1000; [relative_move(0, 2**64)] returns, the library having received the
    distance 0, and [get_position(0)] returns 1000, not 1000 + 2**64. *)
Lemma distance_is_truncated :
  executes_motion Ideal.transport /\
  fst (get_number_of_channels Ideal.transport (Ideal.world [1000])) = Return 1 /\
  fst (get_position Ideal.transport 0 (Ideal.world [1000])) = Return 1000 /\
  fst (relative_move Ideal.transport 0 (2 ^ 64) (Ideal.world [1000]))
    = Return tt /\
  issued (Ideal.world [1000])
    (snd (relative_move Ideal.transport 0 (2 ^ 64) (Ideal.world [1000])))
    = [(SA_GotoPositionRelative_S 0 0 0 60000, Scripted.ok)] /\
  fst (get_position Ideal.transport 0
         (snd (relative_move Ideal.transport 0 (2 ^ 64) (Ideal.world [1000]))))
    = Return 1000 /\
  1000 <> 1000 + 2 ^ 64.
Proof.
  split; [ exact IdealFacts.transport_executes_motion | ].
  repeat split; try (vm_compute; reflexivity).
  vm_compute. discriminate.
Qed.

(** ** The pattern and the scan *)
Module LocatorFacts.

Lemma matches_at_nil : matches_at [] = false.
Proof. reflexivity. Qed.

Lemma findall_cons (c : N) (t : str) :
  findall (c :: t) =
  if matches_at (c :: t)
  then firstn locator_length (c :: t) :: findall_from (locator_length - 1) t
  else findall t.
Proof. reflexivity. Qed.

(** No match anywhere: the scan finds nothing. *)
Lemma findall_none (s : str) :
  (forall i, matches_at (skipn i s) = false) -> findall s = [].
Proof.
  induction s as [| c t IH]; intros H; [ reflexivity | ].
  rewrite findall_cons. pose proof (H 0%nat) as H0. cbn [skipn] in H0.
  rewrite H0. apply IH. intros i. exact (H (S i)).
Qed.

(** The leftmost match is the first element of the scan's result. *)
Lemma findall_first (i : nat) (s : str) :
  (forall j, (j < i)%nat -> matches_at (skipn j s) = false) ->
  matches_at (skipn i s) = true ->
  exists rest, findall s = firstn locator_length (skipn i s) :: rest.
Proof.
  revert s. induction i as [| i IH]; intros s Hbefore Hhere.
  - destruct s as [| c t]; [ discriminate Hhere | ].
    rewrite findall_cons. cbn [skipn] in *. rewrite Hhere. eauto.
  - destruct s as [| c t]; [ discriminate Hhere | ].
    rewrite findall_cons.
    pose proof (Hbefore 0%nat ltac:(lia)) as H0. cbn [skipn] in H0.
    rewrite H0. apply IH; [ | exact Hhere ].
    intros j Hj. apply (Hbefore (S j)). lia.
Qed.

Lemma starts_with_app (p s : str) : starts_with p (p ++ s) = Some s.
Proof.
  induction p as [| c p IH]; [ reflexivity | ].
  cbn. rewrite N.eqb_refl. exact IH.
Qed.

Lemma starts_with_inv (p s rest : str) :
  starts_with p s = Some rest -> s = p ++ rest.
Proof.
  revert s. induction p as [| c p IH]; intros s H.
  - cbn in H. injection H as ->. reflexivity.
  - destruct s as [| d s]; [ discriminate H | ]. cbn in H.
    destruct (N.eqb_spec c d) as [-> |]; [ | discriminate H ].
    cbn. f_equal. apply IH. exact H.
Qed.

Lemma digits_at_firstn (n : nat) (s : str) :
  digits_at n s = true ->
  List.length (firstn n s) = n /\
  Forall (fun c => is_digit c = true) (firstn n s).
Proof.
  revert s. induction n as [| n IH]; intros s H.
  - cbn. auto.
  - destruct s as [| c s]; [ discriminate H | ]. cbn in H.
    apply andb_prop in H as [Hc Hs]. destruct (IH s Hs) as [Hl Hf].
    cbn. split; [ f_equal; exact Hl | constructor; assumption ].
Qed.

Lemma digits_at_app (ds rest : str) (n : nat) :
  Forall (fun c => is_digit c = true) ds -> (n <= List.length ds)%nat ->
  digits_at n (ds ++ rest) = true.
Proof.
  intros Hds. revert n. induction Hds as [| c ds Hc Hds IH]; intros n Hn.
  - cbn in Hn. replace n with 0%nat by lia. reflexivity.
  - destruct n as [| n]; [ reflexivity | ]. cbn. rewrite Hc. cbn.
    apply IH. cbn in Hn. lia.
Qed.

(** A match is the tag followed by ten digits. *)
Lemma matches_at_shape (s : str) :
  matches_at s = true ->
  exists ds,
    firstn locator_length s = tag ++ ds /\
    List.length ds = id_digits /\
    Forall (fun c => is_digit c = true) ds.
Proof.
  unfold matches_at. intros H.
  destruct (starts_with tag s) as [rest |] eqn:E; [ | discriminate H ].
  apply starts_with_inv in E. subst s.
  destruct (digits_at_firstn id_digits rest H) as [Hl Hf].
  exists (firstn id_digits rest). split; [ | auto ].
  unfold locator_length. rewrite firstn_app.
  rewrite firstn_all2 by lia.
  replace (List.length tag + id_digits - List.length tag)%nat
    with id_digits by lia.
  reflexivity.
Qed.

Lemma is_digit_ascii (c : N) : is_digit c = true -> (c < 128)%N.
Proof.
  unfold is_digit. intros H. apply andb_prop in H as [_ H].
  apply N.leb_le in H. lia.
Qed.

(** The characters of a match are all in the ASCII range. *)
Lemma match_is_ascii (s : str) :
  matches_at s = true ->
  Forall (fun c => (c < 128)%N) (firstn locator_length s) /\
  List.length (firstn locator_length s) = locator_length.
Proof.
  intros H. destruct (matches_at_shape s H) as (ds & -> & Hl & Hf).
  split.
  - apply Forall_app. split.
    + repeat constructor.
    + eapply Forall_impl; [ | exact Hf ]. apply is_digit_ascii.
  - rewrite length_app, Hl. reflexivity.
Qed.

End LocatorFacts.

(** ** Decoded text and the bytes it came from *)
Module CodecFacts.

Ltac to_arith :=
  repeat match goal with
         | H : (_ && _) = true |- _ => apply andb_prop in H; destruct H
         | H : (_ <? _)%N = true |- _ => apply N.ltb_lt in H
         | H : (_ <? _)%N = false |- _ => apply N.ltb_ge in H
         | H : (_ <=? _)%N = true |- _ => apply N.leb_le in H
         | H : (_ =? _)%N = true |- _ => apply N.eqb_eq in H
         | H : (_ =? _)%N = false |- _ => apply N.eqb_neq in H
         end.

Ltac decoded H :=
  match type of H with
  | option_map _ ?o = Some _ =>
    let E := fresh "E" in
    destruct o eqn:E; cbn [option_map] in H; [ | discriminate H ];
    injection H as H ?; subst
  end.

(** The first character of the decoded text takes up a non-empty group of
    bytes, and the rest of the text is the decoding of the rest of the
    bytes; an ASCII character is its own single byte. *)
Lemma utf8_decode_cons (bs : bytes) (c : N) (s : str) :
  utf8_decode bs = Some (c :: s) ->
  exists k,
    (0 < k)%nat /\
    utf8_decode (skipn k bs) = Some s /\
    ((c < 128)%N ->
     k = 1%nat /\ exists b t, bs = b :: t /\ Byte.to_N b = c).
Proof.
  intros H. destruct bs as [| b1 t1]; [ discriminate H | ].
  cbn [utf8_decode] in H. cbv zeta in H.
  destruct (Byte.to_N b1 <? 128)%N eqn:H1.
  { decoded H. exists 1%nat. cbn [skipn]. repeat split; eauto; lia. }
  destruct (Byte.to_N b1 <? 194)%N eqn:H2; [ discriminate H | ].
  destruct (Byte.to_N b1 <? 224)%N eqn:H3.
  { destruct t1 as [| b2 t2]; [ discriminate H | ].
    destruct (is_cont b2) eqn:C2; [ | discriminate H ].
    decoded H. exists 2%nat. cbn [skipn].
    split; [ lia | ]. split; [ assumption | ].
    intros Hc. exfalso. unfold is_cont, low6 in *. to_arith. lia. }
  destruct (Byte.to_N b1 <? 240)%N eqn:H4.
  { destruct t1 as [| b2 [| b3 t3]]; try discriminate H.
    match type of H with (if ?g then _ else _) = _ =>
      destruct g eqn:G; [ | discriminate H ] end.
    decoded H. exists 3%nat. cbn [skipn].
    split; [ lia | ]. split; [ assumption | ].
    intros Hc. exfalso. apply andb_prop in G as [G2 G3].
    destruct (Byte.to_N b1 =? 224)%N eqn:Q1;
      [ | destruct (Byte.to_N b1 =? 237)%N eqn:Q2 ];
      unfold is_cont, between, low6 in *; to_arith; lia. }
  destruct (Byte.to_N b1 <? 245)%N eqn:H5; [ | discriminate H ].
  destruct t1 as [| b2 [| b3 [| b4 t4]]]; try discriminate H.
  match type of H with (if ?g then _ else _) = _ =>
    destruct g eqn:G; [ | discriminate H ] end.
  decoded H. exists 4%nat. cbn [skipn].
  split; [ lia | ]. split; [ assumption | ].
  intros Hc. exfalso. apply andb_prop in G as [G G4].
  apply andb_prop in G as [G2 G3].
  destruct (Byte.to_N b1 =? 240)%N eqn:Q1;
    [ | destruct (Byte.to_N b1 =? 244)%N eqn:Q2 ];
    unfold is_cont, between, low6 in *; to_arith; lia.
Qed.

(** Every suffix of the decoded text is the decoding of a suffix of the
    bytes. *)
Lemma utf8_decode_skipn (i : nat) (bs : bytes) (s : str) :
  utf8_decode bs = Some s -> (i <= List.length s)%nat ->
  exists k, utf8_decode (skipn k bs) = Some (skipn i s).
Proof.
  revert bs s. induction i as [| i IH]; intros bs s H Hi.
  - exists 0%nat. exact H.
  - destruct s as [| c s]; [ cbn in Hi; lia | ].
    destruct (utf8_decode_cons bs c s H) as (k1 & _ & H1 & _).
    destruct (IH (skipn k1 bs) s H1) as [k2 H2]; [ cbn in Hi; lia | ].
    rewrite skipn_skipn in H2. eauto.
Qed.

(** An ASCII prefix of the decoded text is, byte for byte, the prefix of
    the bytes. *)
Lemma utf8_decode_ascii_prefix (n : nat) (bs : bytes) (s : str) :
  utf8_decode bs = Some s ->
  Forall (fun c => (c < 128)%N) (firstn n s) ->
  List.length (firstn n s) = n ->
  map Byte.to_N (firstn n bs) = firstn n s.
Proof.
  revert bs s. induction n as [| n IH]; intros bs s H Hascii Hlen.
  - reflexivity.
  - destruct s as [| c s]; [ discriminate Hlen | ].
    cbn [firstn] in Hascii, Hlen. inversion Hascii as [| ? ? Hc Hrest]; subst.
    destruct (utf8_decode_cons bs c s H) as (k & _ & H1 & Hk).
    destruct (Hk Hc) as (-> & b & t & -> & Hb).
    cbn [skipn] in H1. cbn [firstn map]. rewrite Hb. f_equal.
    apply IH; [ exact H1 | exact Hrest | ].
    cbn in Hlen. lia.
Qed.

(** A match in the decoded text is a run of the buffer's own bytes. *)
Lemma match_bytes (buffer : bytes) (s : str) (i : nat) :
  utf8_decode buffer = Some s ->
  matches_at (skipn i s) = true ->
  exists k,
    map Byte.to_N (firstn locator_length (skipn k buffer))
    = firstn locator_length (skipn i s).
Proof.
  intros H Hm.
  assert (Hi : (i <= List.length s)%nat).
  { destruct (Nat.le_gt_cases i (List.length s)) as [Hle | Hgt];
      [ exact Hle | ].
    rewrite skipn_all2 in Hm by lia. discriminate Hm. }
  destruct (utf8_decode_skipn i buffer s H Hi) as [k Hk].
  destruct (LocatorFacts.match_is_ascii _ Hm) as [Hascii Hlen].
  exists k. apply utf8_decode_ascii_prefix; assumption.
Qed.

End CodecFacts.

(** ** Discovery *)

Section DiscoveryClaims.

Context {D : Type}.
Variable T : Transport D.

Lemma init_run_no_locator (w : World D) (r : reply) (d : D) (e : exn) :
  T find_systems_call (device w) = (r, d) ->
  locator_outcome r = Raise e ->
  fst (__init__ T w) = Raise e /\
  issued w (snd (__init__ T w)) = [(find_systems_call, r)].
Proof.
  intros E He.
  assert (Hrun : __init__ T w =
                 (Raise e,
                  {| self := blank; device := d;
                     calls := calls w ++ [(find_systems_call, r)];
                     stdout := stdout w |})).
  { unfold __init__, bind at 1 2, set_self at 1.
    erewrite get_controller_locator_run by (cbn; exact E).
    rewrite He. reflexivity. }
  rewrite Hrun. split; [ reflexivity | ].
  apply issued_app. reflexivity.
Qed.

(** C4 (as amended).  When [SA_FindSystems] succeeds and the buffer it
    filled decodes as UTF-8: if no substring of the text matches the
    pattern, [get_controller_locator] raises [Exception('No controller
    found')], and so does the constructor, which has then made no other
    library call, [SA_OpenSystem] in particular; if some substring
    matches, [get_controller_locator] returns the leftmost match, which
    is, byte for byte, a run of the buffer. *)
Theorem first_locator_of_buffer (w : World D) (r : reply) (d : D) (s : str) :
  T find_systems_call (device w) = (r, d) ->
  status r = 0 ->
  utf8_decode (out_buffer r) = Some s ->
  ((forall i, matches_at (skipn i s) = false) ->
   fst (get_controller_locator T w) = Raise (Exception Msg.no_controller) /\
   fst (__init__ T w) = Raise (Exception Msg.no_controller) /\
   issued w (snd (__init__ T w)) = [(find_systems_call, r)]) /\
  (forall i,
      (forall j, (j < i)%nat -> matches_at (skipn j s) = false) ->
      matches_at (skipn i s) = true ->
      fst (get_controller_locator T w)
        = Return (firstn locator_length (skipn i s)) /\
      exists k,
        map Byte.to_N (firstn locator_length (skipn k (out_buffer r)))
        = firstn locator_length (skipn i s)).
Proof.
  intros E Hs Hdec. split.
  - intros Hnone.
    assert (Hout : locator_outcome r = Raise (Exception Msg.no_controller)).
    { unfold locator_outcome. rewrite Hs, Hdec. cbn.
      rewrite (LocatorFacts.findall_none s Hnone). reflexivity. }
    split.
    + rewrite (get_controller_locator_run T w r d E). exact Hout.
    + exact (init_run_no_locator w r d _ E Hout).
  - intros i Hbefore Hhere. split.
    + rewrite (get_controller_locator_run T w r d E). cbn [fst].
      unfold locator_outcome. rewrite Hs, Hdec. cbn.
      destruct (LocatorFacts.findall_first i s Hbefore Hhere) as [rest ->].
      reflexivity.
    + exact (CodecFacts.match_bytes (out_buffer r) s i Hdec Hhere).
Qed.

(** C9.  When the buffer holds the tag followed by more than ten digits,
    the entry is not rejected: [get_controller_locator] returns the tag
    and the first ten of the digits. *)
Theorem long_id_is_cut (w : World D) (r : reply) (d : D) (ds rest : str) :
  T find_systems_call (device w) = (r, d) ->
  status r = 0 ->
  utf8_decode (out_buffer r) = Some (tag ++ ds ++ rest) ->
  Forall (fun c => is_digit c = true) ds ->
  (id_digits < List.length ds)%nat ->
  fst (get_controller_locator T w) = Return (tag ++ firstn id_digits ds).
Proof.
  intros E Hs Hdec Hds Hlen.
  assert (Hm : matches_at (skipn 0 (tag ++ ds ++ rest)) = true).
  { cbn [skipn]. unfold matches_at. rewrite LocatorFacts.starts_with_app.
    apply LocatorFacts.digits_at_app; [ exact Hds | lia ]. }
  destruct (LocatorFacts.findall_first 0 (tag ++ ds ++ rest)) as [more Hf];
    [ intros j Hj; lia | exact Hm | ].
  rewrite (get_controller_locator_run T w r d E). cbn [fst].
  unfold locator_outcome. rewrite Hs, Hdec. cbn [Z.eqb]. rewrite Hf.
  f_equal. cbn [skipn]. unfold locator_length.
  rewrite firstn_app, firstn_all2 by lia.
  replace (List.length tag + id_digits - List.length tag)%nat
    with id_digits by lia.
  rewrite firstn_app.
  replace (id_digits - List.length ds)%nat with 0%nat by lia.
  cbn [firstn]. rewrite app_nil_r. reflexivity.
Qed.

End DiscoveryClaims.

(** C10.  Two runs of [get_controller_locator], on any two transports in any
    two worlds, in which [SA_FindSystems] succeeds and leaves the same bytes
    in the buffer, end alike: the same locator returned or the same
    exception raised. *)
Theorem same_buffer_same_locator {D1 D2 : Type}
  (T1 : Transport D1) (T2 : Transport D2) (w1 : World D1) (w2 : World D2)
  (r1 r2 : reply) (d1 : D1) (d2 : D2) :
  T1 find_systems_call (device w1) = (r1, d1) ->
  T2 find_systems_call (device w2) = (r2, d2) ->
  status r1 = 0 -> status r2 = 0 ->
  out_buffer r1 = out_buffer r2 ->
  fst (get_controller_locator T1 w1) = fst (get_controller_locator T2 w2).
Proof.
  intros E1 E2 Hs1 Hs2 Hbuf.
  rewrite (get_controller_locator_run T1 w1 r1 d1 E1).
  rewrite (get_controller_locator_run T2 w2 r2 d2 E2).
  cbn [fst]. unfold locator_outcome. rewrite Hs1, Hs2, Hbuf. reflexivity.
Qed.

(** C4, witness: the buffer holds two locators; the first is returned. *)
Lemma first_locator_of_buffer_witness :
  fst (get_controller_locator Scripted.transport
         (DiscoveryScenario.discovering DiscoveryScenario.two_controllers))
    = Return (text "usb:id:3118167233") /\
  exists k,
    map Byte.to_N
      (firstn locator_length
         (skipn k (out_buffer
                     (Scripted.filled DiscoveryScenario.two_controllers))))
    = text "usb:id:3118167233".
Proof.
  pose (s := text "usb:id:3118167233 usb:id:9999999999"
             ++ DiscoveryScenario.padding DiscoveryScenario.two_controllers).
  assert (Hdec : utf8_decode
                   (out_buffer
                      (Scripted.filled DiscoveryScenario.two_controllers))
                 = Some s) by (vm_compute; reflexivity).
  assert (Hbefore : forall j, (j < 0)%nat -> matches_at (skipn j s) = false)
    by (intros j Hj; inversion Hj).
  assert (Hhere : matches_at (skipn 0 s) = true) by (vm_compute; reflexivity).
  exact (proj2
           (first_locator_of_buffer Scripted.transport
              (DiscoveryScenario.discovering DiscoveryScenario.two_controllers)
              (Scripted.filled DiscoveryScenario.two_controllers) [] s
              eq_refl eq_refl Hdec)
           0%nat Hbefore Hhere).
Defined.

(** C4, counterexample: a buffer made of the byte [0xFF] and spaces has no
    matching substring, yet [get_controller_locator] raises
    [UnicodeDecodeError], not [Exception('No controller found')]; a buffer
    that holds a locator followed by [0xFF] has a matching substring, yet
    the same error is raised and no locator returned. *)
Lemma undecodable_buffer :
  (contains_match
     (map Byte.to_N
        (out_buffer (Scripted.filled DiscoveryScenario.stray_byte))) = false /\
   fst (get_controller_locator Scripted.transport
          (DiscoveryScenario.discovering DiscoveryScenario.stray_byte))
     = Raise UnicodeDecodeError /\
   @Raise str UnicodeDecodeError <> Raise (Exception Msg.no_controller)) /\
  (contains_match
     (map Byte.to_N
        (out_buffer
           (Scripted.filled DiscoveryScenario.locator_then_stray_byte)))
     = true /\
   fst (get_controller_locator Scripted.transport
          (DiscoveryScenario.discovering
             DiscoveryScenario.locator_then_stray_byte))
     = Raise UnicodeDecodeError).
Proof.
  repeat split; try (vm_compute; reflexivity).
  discriminate.
Qed.

(** C9, witness: the buffer holds [usb:id:31181672334], eleven digits. *)
Lemma long_id_is_cut_witness :
  fst (get_controller_locator Scripted.transport
         (DiscoveryScenario.discovering DiscoveryScenario.long_id))
    = Return (text "usb:id:3118167233").
Proof.
  assert (Hdec : utf8_decode
                   (out_buffer (Scripted.filled DiscoveryScenario.long_id))
                 = Some (tag ++ text "31181672334"
                             ++ DiscoveryScenario.padding
                                  DiscoveryScenario.long_id))
    by (vm_compute; reflexivity).
  assert (Hds : Forall (fun c => is_digit c = true) (text "31181672334"))
    by (repeat constructor).
  assert (Hlen : (id_digits < List.length (text "31181672334"))%nat)
    by (vm_compute; repeat constructor).
  exact (long_id_is_cut Scripted.transport
           (DiscoveryScenario.discovering DiscoveryScenario.long_id)
           (Scripted.filled DiscoveryScenario.long_id) []
           (text "31181672334")
           (DiscoveryScenario.padding DiscoveryScenario.long_id)
           eq_refl eq_refl Hdec Hds Hlen).
Defined.

(** C10, witness: the same buffer met during construction and on an
    object that already holds a session. *)
Lemma same_buffer_same_locator_witness :
  fst (get_controller_locator Scripted.transport
         (Scripted.world blank
            [Scripted.filled DiscoveryScenario.two_controllers]))
  = fst (get_controller_locator Scripted.transport
           (Scripted.world Scripted.session
              [Scripted.filled DiscoveryScenario.two_controllers;
               Scripted.failing 3])).
Proof.
  exact (same_buffer_same_locator Scripted.transport Scripted.transport
           (Scripted.world blank
              [Scripted.filled DiscoveryScenario.two_controllers])
           (Scripted.world Scripted.session
              [Scripted.filled DiscoveryScenario.two_controllers;
               Scripted.failing 3])
           (Scripted.filled DiscoveryScenario.two_controllers)
           (Scripted.filled DiscoveryScenario.two_controllers)
           [] [Scripted.failing 3]
           eq_refl eq_refl eq_refl eq_refl eq_refl).
Defined.

(** * Further properties of the driver *)

(** ** More on the scan and the codecs *)
Module ScanFacts.

(** Every element of the scan's result is a match found in the text. *)
Lemma findall_from_in (x : str) (s : str) (skip : nat) :
  In x (findall_from skip s) ->
  exists i,
    matches_at (skipn i s) = true /\ x = firstn locator_length (skipn i s).
Proof.
  revert skip. induction s as [| c t IH]; intros skip H; [ destruct H | ].
  cbn [findall_from] in H. destruct skip as [| k].
  - destruct (matches_at (c :: t)) eqn:Hm.
    + destruct H as [<- | H].
      * exists 0%nat. auto.
      * destruct (IH _ H) as (i & Hi & ->). exists (S i). auto.
    + destruct (IH _ H) as (i & Hi & ->). exists (S i). auto.
  - destruct (IH _ H) as (i & Hi & ->). exists (S i). auto.
Qed.

(** An empty result means that the pattern matches nowhere. *)
Lemma findall_nil (s : str) :
  findall s = [] -> forall i, matches_at (skipn i s) = false.
Proof.
  induction s as [| c t IH]; intros H i.
  - rewrite skipn_nil. reflexivity.
  - rewrite LocatorFacts.findall_cons in H.
    destruct (matches_at (c :: t)) eqn:Hm; [ discriminate H | ].
    destruct i as [| i]; [ exact Hm | ]. cbn [skipn]. apply IH. exact H.
Qed.

(** ASCII text can be encoded, and the bytes are the characters'
    numbers. *)
Lemma ascii_encode_ascii (s : str) :
  Forall (fun c => (c < 128)%N) s ->
  exists b, ascii_encode s = Some b /\ map Byte.to_N b = s.
Proof.
  induction 1 as [| c t Hc Ht (b & Hb & Hmap)].
  - exists []. auto.
  - cbn [ascii_encode]. apply N.ltb_lt in Hc as Hc'. rewrite Hc'.
    destruct (Byte.of_N c) as [x |] eqn:Ex.
    + exists (x :: b). rewrite Hb. cbn. split; [ reflexivity | ].
      apply Byte.to_of_N in Ex. rewrite Ex, Hmap. reflexivity.
    + apply Byte.of_N_None_iff in Ex. lia.
Qed.

(** Whatever the scan returns first can be encoded in ASCII. *)
Lemma findall_head_encodes (s first : str) (rest : list str) :
  findall s = first :: rest ->
  exists b, ascii_encode first = Some b /\ map Byte.to_N b = first.
Proof.
  intros H.
  destruct (findall_from_in first s 0) as (i & Hi & ->).
  { unfold findall in H. rewrite H. left. reflexivity. }
  apply ascii_encode_ascii.
  exact (proj1 (LocatorFacts.match_is_ascii _ Hi)).
Qed.

End ScanFacts.

(** ** The constructor *)
Section Constructor.

Context {D : Type}.
Variable T : Transport D.

Lemma locator_outcome_return (r : reply) (locator : str) :
  locator_outcome r = Return locator ->
  exists s rest,
    status r = 0 /\ utf8_decode (out_buffer r) = Some s /\
    findall s = locator :: rest.
Proof.
  unfold locator_outcome. intros H.
  destruct (Z.eqb_spec (status r) 0) as [Hs |]; [ | discriminate H ].
  destruct (utf8_decode (out_buffer r)) as [s |]; [ | discriminate H ].
  destruct (findall s) as [| first rest] eqn:Hf; [ discriminate H | ].
  injection H as ->. eauto.
Qed.

Lemma locator_outcome_raise (r : reply) (e : exn) :
  locator_outcome r = Raise e ->
  e = Exception Msg.find_systems \/ e = UnicodeDecodeError \/
  e = Exception Msg.no_controller.
Proof.
  unfold locator_outcome. intros H.
  destruct (status r =? 0); [ | injection H as <-; auto ].
  destruct (utf8_decode (out_buffer r)) as [s |]; [ | injection H as <-; auto ].
  destruct (findall s); [ injection H as <-; auto | discriminate H ].
Qed.

(** The run of the constructor once discovery has returned a locator. *)
Lemma constructor_run_located
  (w : World D) (r : reply) (d : D) (locator : str) (b : bytes)
  (ro : reply) (d' : D) :
  T find_systems_call (device w) = (r, d) ->
  locator_outcome r = Return locator ->
  ascii_encode locator = Some b ->
  T (SA_OpenSystem b (ascii_bytes "sync")) d = (ro, d') ->
  __init__ T w =
  (if status ro =? 0 then Return tt else Raise (Exception Msg.open_system),
   {| self :=
        {| controller_locator := Some locator;
           system_index :=
             if status ro =? 0 then Some (c_ulong (out_value ro)) else None |};
      device := d';
      calls := calls w ++ [(find_systems_call, r);
                           (SA_OpenSystem b (ascii_bytes "sync"), ro)];
      stdout := stdout w |}).
Proof.
  intros E Hout Hb Eo.
  unfold __init__, bind at 1 2, set_self at 1.
  erewrite get_controller_locator_run by (cbn; exact E).
  rewrite Hout.
  unfold bind at 1, set_controller_locator, set_self. cbn [self device calls
    stdout system_index blank].
  unfold bind at 1, get_controller_locator_attr. cbn [self controller_locator].
  unfold bind.
  erewrite init_communication_run by (cbn; eauto).
  cbn [self device calls stdout]. rewrite <- app_assoc. cbn [app].
  destruct (status ro =? 0); reflexivity.
Qed.

(** Discovery finds a first match at offset [i] of the decoded buffer. *)
Lemma locator_outcome_first_match (r : reply) (s : str) (i : nat) :
  status r = 0 ->
  utf8_decode (out_buffer r) = Some s ->
  (forall j, (j < i)%nat -> matches_at (skipn j s) = false) ->
  matches_at (skipn i s) = true ->
  locator_outcome r = Return (firstn locator_length (skipn i s)).
Proof.
  intros Hs Hdec Hbefore Hhere. unfold locator_outcome.
  rewrite Hs, Hdec. cbn [Z.eqb].
  destruct (LocatorFacts.findall_first i s Hbefore Hhere) as [rest ->].
  reflexivity.
Qed.

(** X1.  When discovery succeeds and the library accepts the opening, the
    constructor returns an object that holds the first locator of the buffer
    and the handle the library stored, reduced to 32 bits.  It has made two
    library calls, [SA_FindSystems] and then [SA_OpenSystem] with the
    locator's own bytes and the option [sync]. *)
Theorem constructor_opens_session
  (w : World D) (r : reply) (d : D) (s : str) (i : nat) :
  T find_systems_call (device w) = (r, d) ->
  status r = 0 ->
  utf8_decode (out_buffer r) = Some s ->
  (forall j, (j < i)%nat -> matches_at (skipn j s) = false) ->
  matches_at (skipn i s) = true ->
  exists b,
    map Byte.to_N b = firstn locator_length (skipn i s) /\
    forall ro d',
      T (SA_OpenSystem b (ascii_bytes "sync")) d = (ro, d') ->
      status ro = 0 ->
      __init__ T w =
      (Return tt,
       {| self :=
            {| controller_locator := Some (firstn locator_length (skipn i s));
               system_index := Some (c_ulong (out_value ro)) |};
          device := d';
          calls := calls w ++ [(find_systems_call, r);
                               (SA_OpenSystem b (ascii_bytes "sync"), ro)];
          stdout := stdout w |}).
Proof.
  intros E Hs Hdec Hbefore Hhere.
  pose proof (locator_outcome_first_match r s i Hs Hdec Hbefore Hhere) as Hout.
  destruct (ScanFacts.ascii_encode_ascii
              (firstn locator_length (skipn i s))
              (proj1 (LocatorFacts.match_is_ascii _ Hhere)))
    as (b & Hb & Hmap).
  exists b. split; [ exact Hmap | ].
  intros ro d' Eo Hso.
  rewrite (constructor_run_located w r d _ b ro d' E Hout Hb Eo).
  rewrite Hso. reflexivity.
Qed.

(** X2.  When discovery succeeds and the library refuses the opening, the
    constructor raises [Exception('SmarAct SA_OpenSystem failed')] after the
    two calls [SA_FindSystems] and [SA_OpenSystem]: no [SA_CloseSystem] is
    sent.  The object under construction has its locator and no handle. *)
Theorem constructor_open_refused
  (w : World D) (r : reply) (d : D) (s : str) (i : nat) :
  T find_systems_call (device w) = (r, d) ->
  status r = 0 ->
  utf8_decode (out_buffer r) = Some s ->
  (forall j, (j < i)%nat -> matches_at (skipn j s) = false) ->
  matches_at (skipn i s) = true ->
  exists b,
    map Byte.to_N b = firstn locator_length (skipn i s) /\
    forall ro d',
      T (SA_OpenSystem b (ascii_bytes "sync")) d = (ro, d') ->
      status ro <> 0 ->
      __init__ T w =
      (Raise (Exception Msg.open_system),
       {| self :=
            {| controller_locator := Some (firstn locator_length (skipn i s));
               system_index := None |};
          device := d';
          calls := calls w ++ [(find_systems_call, r);
                               (SA_OpenSystem b (ascii_bytes "sync"), ro)];
          stdout := stdout w |}).
Proof.
  intros E Hs Hdec Hbefore Hhere.
  pose proof (locator_outcome_first_match r s i Hs Hdec Hbefore Hhere) as Hout.
  destruct (ScanFacts.ascii_encode_ascii
              (firstn locator_length (skipn i s))
              (proj1 (LocatorFacts.match_is_ascii _ Hhere)))
    as (b & Hb & Hmap).
  exists b. split; [ exact Hmap | ].
  intros ro d' Eo Hso.
  rewrite (constructor_run_located w r d _ b ro d' E Hout Hb Eo).
  apply Z.eqb_neq in Hso. rewrite Hso. reflexivity.
Qed.

(** X3.  Every run of the constructor ends in one of two ways.  Either it
    returns, and the object holds a locator and a handle; or it raises one
    of four exceptions (discovery refused, buffer not decodable, no
    controller found, opening refused), and the object holds no handle.  It
    never raises [UnicodeEncodeError] or [AttributeError], makes at most two
    library calls, and never calls [SA_CloseSystem]. *)
Theorem constructor_outcomes (w : World D) :
  ((fst (__init__ T w) = Return tt /\
    exists locator handle,
      self (snd (__init__ T w)) =
      {| controller_locator := Some locator; system_index := Some handle |})
   \/
   (exists e,
      fst (__init__ T w) = Raise e /\
      In e [Exception Msg.find_systems; UnicodeDecodeError;
            Exception Msg.no_controller; Exception Msg.open_system] /\
      system_index (self (snd (__init__ T w))) = None)) /\
  (List.length (issued w (snd (__init__ T w))) <= 2)%nat /\
  forallb (fun ev => negb (is_close (fst ev)))
          (issued w (snd (__init__ T w))) = true.
Proof.
  destruct (T find_systems_call (device w)) as [r d] eqn:E.
  destruct (locator_outcome r) as [locator | e] eqn:Hout.
  - destruct (locator_outcome_return r locator Hout)
      as (s & rest & Hs & Hdec & Hf).
    destruct (ScanFacts.findall_head_encodes s locator rest Hf)
      as (b & Hb & _).
    destruct (T (SA_OpenSystem b (ascii_bytes "sync")) d) as [ro d'] eqn:Eo.
    rewrite (constructor_run_located w r d locator b ro d' E Hout Hb Eo).
    cbn [fst snd self system_index].
    erewrite issued_app by (cbn; reflexivity).
    split; [ | split; [ cbn; lia | reflexivity ] ].
    destruct (status ro =? 0).
    + left. eauto.
    + right. eexists. split; [ reflexivity | ]. split; [ | reflexivity ].
      cbn. auto.
  - destruct (init_run_no_locator T w r d e E Hout) as [Hres Hiss].
    rewrite Hiss. split; [ | split; [ cbn; lia | reflexivity ] ].
    right. exists e. split; [ exact Hres | ]. split.
    + destruct (locator_outcome_raise r e Hout) as [-> | [-> | ->]];
        cbn; auto.
    + unfold __init__, bind at 1 2, set_self at 1.
      erewrite get_controller_locator_run by (cbn; exact E).
      rewrite Hout. reflexivity.
Qed.

End Constructor.

(** ** What discovery returns *)
Section Located.

Context {D : Type}.
Variable T : Transport D.

(** X4.  Whatever [get_controller_locator] returns has the form of a
    locator: the tag [usb:id:] followed by exactly ten decimal digits. *)
Theorem located_is_well_formed (w : World D) (locator : str) :
  fst (get_controller_locator T w) = Return locator ->
  exists ds,
    locator = tag ++ ds /\
    List.length ds = id_digits /\
    Forall (fun c => is_digit c = true) ds.
Proof.
  intros H.
  destruct (T find_systems_call (device w)) as [r d] eqn:E.
  rewrite (get_controller_locator_run T w r d E) in H. cbn [fst] in H.
  destruct (locator_outcome_return r locator H) as (s & rest & _ & _ & Hf).
  destruct (ScanFacts.findall_from_in locator s 0) as (i & Hi & ->).
  { unfold findall in Hf. rewrite Hf. left. reflexivity. }
  exact (LocatorFacts.matches_at_shape _ Hi).
Qed.

(** X5.  When [SA_FindSystems] succeeds and the buffer decodes,
    [get_controller_locator] raises [Exception('No controller found')]
    exactly when the pattern matches at no offset of the text. *)
Theorem no_controller_iff_no_match
  (w : World D) (r : reply) (d : D) (s : str) :
  T find_systems_call (device w) = (r, d) ->
  status r = 0 ->
  utf8_decode (out_buffer r) = Some s ->
  fst (get_controller_locator T w) = Raise (Exception Msg.no_controller) <->
  (forall i, matches_at (skipn i s) = false).
Proof.
  intros E Hs Hdec.
  rewrite (get_controller_locator_run T w r d E). cbn [fst].
  unfold locator_outcome. rewrite Hs, Hdec. cbn [Z.eqb]. split.
  - intros H. apply ScanFacts.findall_nil.
    destruct (findall s); [ reflexivity | discriminate H ].
  - intros H. rewrite (LocatorFacts.findall_none s H). reflexivity.
Qed.

End Located.

(** ** Accepted calls, and calls after a close *)
Section Accepted.

Context {D : Type}.
Variable T : Transport D.

(** The run of an operation that needs the open session, with the kind of
    its library call: it is never [SA_CloseSystem]. *)
Lemma session_operation_call (op : operation) (w : World D) (idx : Z) :
  closes_on_failure op = true ->
  system_index (self w) = Some idx ->
  exists c : call,
    (forall r d1, T c (device w) = (r, d1) ->
     forall rc d2, T (SA_CloseSystem (c_ulong idx)) d1 = (rc, d2) ->
       if status r =? 0 then
         exists v out,
           invoke T op w =
           (Return v,
            {| self := self w; device := d1;
               calls := calls w ++ [(c, r)]; stdout := out |})
       else
         exists e,
           invoke T op w =
           (Raise e,
            {| self := self w; device := d2;
               calls := calls w ++ [(c, r); (SA_CloseSystem (c_ulong idx), rc)];
               stdout := stdout w |})) /\
    is_close c = false.
Proof.
  intros Hop Hidx.
  destruct op; try discriminate Hop; clear Hop;
    (eexists; split;
     [ intros r d1 E1 rc d2 E2;
       destruct (status r =? 0) eqn:Hs;
       simpl invoke;
       unfold returning, get_number_of_channels, get_position, find_reference,
         relative_move, absolute_move, stop, close_communication,
         bind, get_system_index, dll, print, ret, raise;
       cbn; rewrite Hidx; cbn; rewrite E1; cbn; rewrite Hs; cbn;
       try (do 2 eexists; reflexivity);
       rewrite Hidx; cbn; rewrite E2; cbn; rewrite <- app_assoc; cbn;
       destruct (status rc =? 0); eexists; reflexivity
     | reflexivity ]).
Qed.

(** X6.  When the library accepts the call of an operation that needs the
    open session, the operation returns, having made that one call and no
    other: the session is not closed and the object is not touched. *)
Theorem accepted_call_returns (op : operation) (w : World D) (idx : Z) :
  closes_on_failure op = true ->
  system_index (self w) = Some idx ->
  accepted_call w (snd (invoke T op w)) ->
  is_raise (fst (invoke T op w)) = false /\
  self (snd (invoke T op w)) = self w /\
  exists c r,
    calls (snd (invoke T op w)) = calls w ++ [(c, r)] /\
    status r = 0 /\ is_close c = false.
Proof.
  intros Hop Hidx (c0 & r0 & rest & Hiss & Hst).
  destruct (session_operation_call op w idx Hop Hidx) as (c & Hrun & Hc).
  destruct (T c (device w)) as [r d1] eqn:E1.
  destruct (T (SA_CloseSystem (c_ulong idx)) d1) as [rc d2] eqn:E2.
  specialize (Hrun r d1 eq_refl rc d2 E2).
  destruct (Z.eqb_spec (status r) 0) as [Hs | Hs].
  - destruct Hrun as (v & out & Hrun). rewrite Hrun. cbn.
    split; [ reflexivity | ]. split; [ reflexivity | ]. eauto.
  - destruct Hrun as (e & Hrun). rewrite Hrun in Hiss. cbn [snd] in Hiss.
    erewrite issued_app in Hiss by (cbn; reflexivity).
    injection Hiss as _ Hr _. subst r0. contradiction.
Qed.

(** X11.  A close is not remembered.  After [close_communication] has
    returned, the object still holds the handle; a second
    [close_communication] sends [SA_CloseSystem] for it again, and every
    other operation still sends its own call to the library. *)
Theorem close_is_not_remembered (w w1 : World D) (idx : Z) :
  system_index (self w) = Some idx ->
  close_communication T w = (Return tt, w1) ->
  system_index (self w1) = Some idx /\
  (exists r,
     issued w1 (snd (close_communication T w1))
     = [(SA_CloseSystem (c_ulong idx), r)]) /\
  (forall op, closes_on_failure op = true ->
     exists c r rest,
       issued w1 (snd (invoke T op w1)) = (c, r) :: rest /\
       is_close c = false).
Proof.
  intros Hidx Hclose.
  assert (Hidx1 : system_index (self w1) = Some idx).
  { pose proof (close_communication_writes_nothing T w) as Hself.
    rewrite Hclose in Hself. cbn [snd] in Hself. rewrite Hself. exact Hidx. }
  split; [ exact Hidx1 | ]. split.
  - destruct (T (SA_CloseSystem (c_ulong idx)) (device w1)) as [r d] eqn:E.
    exists r. rewrite (close_communication_run T w1 idx Hidx1 r d E).
    apply issued_app. reflexivity.
  - intros op Hop.
    destruct (session_operation_call op w1 idx Hop Hidx1) as (c & Hrun & Hc).
    destruct (T c (device w1)) as [r d1] eqn:E1.
    destruct (T (SA_CloseSystem (c_ulong idx)) d1) as [rc d2] eqn:E2.
    specialize (Hrun r d1 eq_refl rc d2 E2).
    destruct (status r =? 0).
    + destruct Hrun as (v & out & Hrun). exists c, r, []. rewrite Hrun.
      split; [ apply issued_app; reflexivity | exact Hc ].
    + destruct Hrun as (e & Hrun).
      exists c, r, [(SA_CloseSystem (c_ulong idx), rc)]. rewrite Hrun.
      split; [ apply issued_app; reflexivity | exact Hc ].
Qed.

(** X12.  Both moves send their command with the hold time 60000 and with
    the distance or target reduced to a signed 32-bit [long]; the only call
    that can follow is the close after a refusal. *)
Theorem moves_hold_time (w : World D) (idx channel_index position : Z) :
  system_index (self w) = Some idx ->
  (exists r rest,
     issued w (snd (relative_move T channel_index position w)) =
     (SA_GotoPositionRelative_S (c_ulong idx) (c_ulong channel_index)
        (c_long position) 60000, r) :: rest /\
     (rest = [] \/ exists rc, rest = [(SA_CloseSystem (c_ulong idx), rc)])) /\
  (exists r rest,
     issued w (snd (absolute_move T channel_index position w)) =
     (SA_GotoPositionAbsolute_S (c_ulong idx) (c_ulong channel_index)
        (c_long position) 60000, r) :: rest /\
     (rest = [] \/ exists rc, rest = [(SA_CloseSystem (c_ulong idx), rc)])).
Proof.
  intros Hidx. split.
  - unfold relative_move, bind, get_system_index at 1, dll at 1.
    rewrite Hidx. change (c_ulong 60000) with 60000.
    destruct (T _ (device w)) as [r d1] eqn:E1.
    destruct (status r =? 0); cbn [negb].
    + exists r, []. split; [ | left; reflexivity ].
      apply issued_app. reflexivity.
    + destruct (T (SA_CloseSystem (c_ulong idx)) d1) as [rc d2] eqn:E2.
      erewrite close_communication_run by (cbn; eauto).
      exists r, [(SA_CloseSystem (c_ulong idx), rc)].
      split; [ | right; eauto ].
      apply issued_app. destruct (status rc =? 0); cbn;
        rewrite <- app_assoc; reflexivity.
  - unfold absolute_move, bind, get_system_index at 1, dll at 1.
    rewrite Hidx. change (c_ulong 60000) with 60000.
    destruct (T _ (device w)) as [r d1] eqn:E1.
    destruct (status r =? 0); cbn [negb].
    + exists r, []. split; [ | left; reflexivity ].
      apply issued_app. reflexivity.
    + destruct (T (SA_CloseSystem (c_ulong idx)) d1) as [rc d2] eqn:E2.
      erewrite close_communication_run by (cbn; eauto).
      exists r, [(SA_CloseSystem (c_ulong idx), rc)].
      split; [ | right; eauto ].
      apply issued_app. destruct (status rc =? 0); cbn;
        rewrite <- app_assoc; reflexivity.
Qed.

End Accepted.

(** ** Arguments beyond 32 bits *)
Module WrapFacts.


Lemma c_long_shift (v k : Z) : c_long (v + k * long_modulus) = c_long v.
Proof.
  unfold c_long. f_equal.
  replace (v + k * long_modulus + long_modulus / 2)
    with (v + long_modulus / 2 + k * long_modulus) by lia.
  apply Z_mod_plus_full.
Qed.

End WrapFacts.

Section Wrapping.

Context {D : Type}.
Variable T : Transport D.


(** X8.  The distance of a relative move and the target of an absolute
    move count modulo [2^32] only: adding any multiple of [2^32] to them
    gives the same run. *)
Theorem move_argument_wraps (w : World D) (channel_index position k : Z) :
  relative_move T channel_index (position + k * long_modulus) w
    = relative_move T channel_index position w /\
  absolute_move T channel_index (position + k * long_modulus) w
    = absolute_move T channel_index position w.
Proof.
  unfold relative_move, absolute_move.
  rewrite WrapFacts.c_long_shift. auto.
Qed.

(** X10.  The numbers the queries return fit their 32-bit cells: a channel
    count and a handle lie in [0, 2^32), a position in [-2^31, 2^31). *)
Theorem returned_numbers_fit (w : World D) :
  (forall n, fst (get_number_of_channels T w) = Return n -> in_c_ulong n) /\
  (forall channel_index p,
      fst (get_position T channel_index w) = Return p -> in_c_long p) /\
  (forall locator handle,
      fst (init_communication T locator w) = Return handle ->
      in_c_ulong handle).
Proof.
  split; [ | split ].
  - intros n H.
    unfold get_number_of_channels, bind, get_system_index, dll in H.
    destruct (system_index (self w)); [ | discriminate H ].
    destruct (T _ (device w)) as [r d].
    destruct (status r =? 0); cbn [negb] in H.
    + injection H as <-. apply CtypesFacts.c_ulong_range.
    + destruct (close_communication T _) as [[[] | e] w']; discriminate H.
  - intros ch p H.
    unfold get_position, bind, get_system_index, dll in H.
    destruct (system_index (self w)); [ | discriminate H ].
    destruct (T _ (device w)) as [r d].
    destruct (status r =? 0); cbn [negb] in H.
    + injection H as <-. apply CtypesFacts.c_long_range.
    + destruct (close_communication T _) as [[[] | e] w']; discriminate H.
  - intros l h H.
    unfold init_communication, bind, encode_ascii, dll in H.
    destruct (ascii_encode l); [ | discriminate H ]. unfold ret at 1 in H.
    destruct (T _ (device w)) as [r d].
    destruct (status r =? 0); cbn [negb] in H; [ | discriminate H ].
    injection H as <-. apply CtypesFacts.c_ulong_range.
Qed.

End Wrapping.

(** ** The console *)
Section Console.

Context {D : Type}.
Variable T : Transport D.

Lemma bind_prints_nothing {A B} (m : M A) (k : A -> M B) :
  prints_nothing (D := D) m -> (forall a, prints_nothing (D := D) (k a)) ->
  prints_nothing (D := D) (bind m k).
Proof.
  intros Hm Hk w. unfold bind. specialize (Hm w).
  destruct (m w) as [[a | e] w']; simpl in *.
  - rewrite Hk. exact Hm.
  - exact Hm.
Qed.

Lemma dll_prints_nothing (c : call) : prints_nothing (dll T c).
Proof. intros w. unfold dll. destruct (T c (device w)). reflexivity. Qed.

Lemma get_system_index_prints_nothing :
  prints_nothing (D := D) get_system_index.
Proof.
  intros w. unfold get_system_index.
  destruct (system_index (self w)); reflexivity.
Qed.

Lemma close_communication_prints_nothing :
  prints_nothing (close_communication T).
Proof.
  unfold close_communication.
  apply bind_prints_nothing; [ apply get_system_index_prints_nothing | ].
  intros i. apply bind_prints_nothing; [ apply dll_prints_nothing | ].
  intros r w. destruct (negb (status r =? 0)); reflexivity.
Qed.

(** A query or command that closes and raises on a refusal and otherwise
    returns a value without printing. *)
Lemma guarded_call_prints_nothing {A} (c : Z -> call) (msg : string)
  (result : reply -> A) :
  prints_nothing
    (bind get_system_index (fun i =>
     bind (dll T (c i)) (fun r =>
     if negb (status r =? 0)
     then bind (close_communication T) (fun _ => raise (Exception msg))
     else ret (result r)))).
Proof.
  apply bind_prints_nothing; [ apply get_system_index_prints_nothing | ].
  intros i. apply bind_prints_nothing; [ apply dll_prints_nothing | ].
  intros r. destruct (negb (status r =? 0)).
  - apply bind_prints_nothing; [ apply close_communication_prints_nothing | ].
    intros u w. reflexivity.
  - intros w. reflexivity.
Qed.

Lemma returning_prints_nothing {A} (inj : A -> value) (m : M A) :
  prints_nothing (D := D) m -> prints_nothing (D := D) (returning inj m).
Proof.
  intros H. unfold returning. apply bind_prints_nothing; [ exact H | ].
  intros a w. reflexivity.
Qed.

(** X9.  The only thing the driver ever prints is the line
    [The positionner is referenced !], once, when [find_reference] returns.
    Every other operation, and [find_reference] when it raises, leaves the
    console as it was. *)
Theorem console_output (op : operation) (w : World D) :
  stdout (snd (invoke T op w)) =
  match op, fst (invoke T op w) with
  | Find_reference _, Return _ => stdout w ++ [Msg.referenced]
  | _, _ => stdout w
  end.
Proof.
  destruct op as [ | l | | | ch | ch | ch p | ch p | ch ];
    try (simpl invoke; apply returning_prints_nothing).
  - unfold get_controller_locator.
    apply bind_prints_nothing; [ apply dll_prints_nothing | ].
    intros r. destruct (negb (status r =? 0)); [ intros w'; reflexivity | ].
    apply bind_prints_nothing.
    + intros w'. unfold decode. destruct (utf8_decode _); reflexivity.
    + intros s w'. destruct (findall s); reflexivity.
  - unfold init_communication. apply bind_prints_nothing.
    + intros w'. unfold encode_ascii. destruct (ascii_encode l); reflexivity.
    + intros b. apply bind_prints_nothing; [ apply dll_prints_nothing | ].
      intros r w'. destruct (negb (status r =? 0)); reflexivity.
  - apply (guarded_call_prints_nothing
             (fun i => SA_GetNumberOfChannels (c_ulong i))).
  - apply close_communication_prints_nothing.
  - apply (guarded_call_prints_nothing
             (fun i => SA_GetPosition_S (c_ulong i) (c_ulong ch))).
  - simpl invoke.
    unfold returning, find_reference, bind, get_system_index, dll, print.
    destruct (system_index (self w)) as [idx |]; [ | reflexivity ].
    destruct (T _ (device w)) as [r d1].
    destruct (status r =? 0); cbn [negb]; [ reflexivity | ].
    pose proof (close_communication_prints_nothing
                  {| self := self w; device := d1;
                     calls := calls w ++
                       [(SA_FindReferenceMark_S (c_ulong idx) (c_ulong ch)
                           (c_ulong 0) (c_ulong 60000) (c_ulong 1), r)];
                     stdout := stdout w |}) as Hc.
    destruct (close_communication T _) as [[[] | e] w']; exact Hc.
  - apply (guarded_call_prints_nothing
             (fun i => SA_GotoPositionRelative_S (c_ulong i) (c_ulong ch)
                         (c_long p) (c_ulong 60000))
             Msg.goto_relative (fun _ => tt)).
  - apply (guarded_call_prints_nothing
             (fun i => SA_GotoPositionAbsolute_S (c_ulong i) (c_ulong ch)
                         (c_long p) (c_ulong 60000))
             Msg.goto_absolute (fun _ => tt)).
  - apply (guarded_call_prints_nothing
             (fun i => SA_Stop_S (c_ulong i) (c_ulong ch))
             Msg.stop (fun _ => tt)).
Qed.

End Console.

(** ** Scenarios for the further properties *)

(** X1, witness: one controller found, opened under handle 5. *)
Lemma constructor_opens_session_witness :
  exists b,
    map Byte.to_N b = text "usb:id:3118167233" /\
    __init__ Scripted.transport (Lifecycle.constructing (Scripted.yielding 5)) =
    (Return tt,
     {| self := {| controller_locator := Some (text "usb:id:3118167233");
                   system_index := Some 5 |};
        device := [];
        calls := [(find_systems_call, Scripted.filled Lifecycle.found);
                  (SA_OpenSystem b (ascii_bytes "sync"), Scripted.yielding 5)];
        stdout := [] |}).
Proof.
  assert (Hdec : utf8_decode (out_buffer (Scripted.filled Lifecycle.found))
                 = Some Lifecycle.found_text) by (vm_compute; reflexivity).
  assert (Hbefore : forall j, (j < 0)%nat ->
                      matches_at (skipn j Lifecycle.found_text) = false)
    by (intros j Hj; inversion Hj).
  assert (Hhere : matches_at (skipn 0 Lifecycle.found_text) = true)
    by (vm_compute; reflexivity).
  destruct (constructor_opens_session Scripted.transport
              (Lifecycle.constructing (Scripted.yielding 5))
              (Scripted.filled Lifecycle.found) [Scripted.yielding 5]
              Lifecycle.found_text 0 eq_refl eq_refl Hdec Hbefore Hhere)
    as (b & Hmap & Hrun).
  exists b. split; [ exact Hmap | ].
  exact (Hrun (Scripted.yielding 5) [] eq_refl eq_refl).
Defined.

(** X2, witness: one controller found, the opening refused with status 4. *)
Lemma constructor_open_refused_witness :
  exists b,
    map Byte.to_N b = text "usb:id:3118167233" /\
    __init__ Scripted.transport (Lifecycle.constructing (Scripted.failing 4)) =
    (Raise (Exception "SmarAct SA_OpenSystem failed"),
     {| self := {| controller_locator := Some (text "usb:id:3118167233");
                   system_index := None |};
        device := [];
        calls := [(find_systems_call, Scripted.filled Lifecycle.found);
                  (SA_OpenSystem b (ascii_bytes "sync"), Scripted.failing 4)];
        stdout := [] |}).
Proof.
  assert (Hdec : utf8_decode (out_buffer (Scripted.filled Lifecycle.found))
                 = Some Lifecycle.found_text) by (vm_compute; reflexivity).
  assert (Hbefore : forall j, (j < 0)%nat ->
                      matches_at (skipn j Lifecycle.found_text) = false)
    by (intros j Hj; inversion Hj).
  assert (Hhere : matches_at (skipn 0 Lifecycle.found_text) = true)
    by (vm_compute; reflexivity).
  destruct (constructor_open_refused Scripted.transport
              (Lifecycle.constructing (Scripted.failing 4))
              (Scripted.filled Lifecycle.found) [Scripted.failing 4]
              Lifecycle.found_text 0 eq_refl eq_refl Hdec Hbefore Hhere)
    as (b & Hmap & Hrun).
  exists b. split; [ exact Hmap | ].
  exact (Hrun (Scripted.failing 4) [] eq_refl ltac:(discriminate)).
Defined.

(** X4, witness: the locator found among two. *)
Lemma located_is_well_formed_witness :
  exists ds,
    text "usb:id:3118167233" = tag ++ ds /\
    List.length ds = id_digits /\
    Forall (fun c => is_digit c = true) ds.
Proof.
  exact (located_is_well_formed Scripted.transport
           (DiscoveryScenario.discovering DiscoveryScenario.two_controllers)
           (text "usb:id:3118167233") eq_refl).
Defined.

(** X5, witness: an enumeration that lists nothing. *)
Lemma no_controller_iff_no_match_witness :
  fst (get_controller_locator Scripted.transport
         (DiscoveryScenario.discovering Lifecycle.nothing))
    = Raise (Exception Msg.no_controller) <->
  (forall i, matches_at (skipn i Lifecycle.nothing_text) = false).
Proof.
  assert (Hdec : utf8_decode (out_buffer (Scripted.filled Lifecycle.nothing))
                 = Some Lifecycle.nothing_text) by (vm_compute; reflexivity).
  exact (no_controller_iff_no_match Scripted.transport
           (DiscoveryScenario.discovering Lifecycle.nothing)
           (Scripted.filled Lifecycle.nothing) [] Lifecycle.nothing_text
           eq_refl eq_refl Hdec).
Defined.

(** X6, witness: [get_position] on channel 3, accepted. *)
Lemma accepted_call_returns_witness :
  accepted_call (Lifecycle.answering 42)
    (snd (invoke Scripted.transport (Get_position 3)
            (Lifecycle.answering 42))) /\
  is_raise (fst (invoke Scripted.transport (Get_position 3)
                   (Lifecycle.answering 42))) = false /\
  self (snd (invoke Scripted.transport (Get_position 3)
               (Lifecycle.answering 42)))
    = self (Lifecycle.answering 42) /\
  exists c r,
    calls (snd (invoke Scripted.transport (Get_position 3)
                  (Lifecycle.answering 42)))
      = calls (Lifecycle.answering 42) ++ [(c, r)] /\
    status r = 0 /\ is_close c = false.
Proof.
  assert (H : accepted_call (Lifecycle.answering 42)
                (snd (invoke Scripted.transport (Get_position 3)
                        (Lifecycle.answering 42)))).
  { exists (SA_GetPosition_S 7 3), (Scripted.yielding 42), [].
    split; reflexivity. }
  split; [ exact H | ].
  exact (accepted_call_returns Scripted.transport (Get_position 3)
           (Lifecycle.answering 42) 7 eq_refl eq_refl H).
Defined.

(** X10, witness: the library stores [2^31] as a position; the driver
    returns [-2^31]. *)
Lemma returned_numbers_fit_witness :
  fst (get_position Scripted.transport 0 (Lifecycle.answering (2 ^ 31)))
    = Return (- 2 ^ 31) /\
  in_c_long (- 2 ^ 31).
Proof.
  split; [ reflexivity | ].
  exact (proj1 (proj2 (returned_numbers_fit Scripted.transport
                         (Lifecycle.answering (2 ^ 31))))
           0 (- 2 ^ 31) eq_refl).
Defined.

(** X11, witness: a session closed, then used again. *)
Lemma close_is_not_remembered_witness :
  system_index
    (self (snd (close_communication Scripted.transport
                  (Lifecycle.answering 0)))) = Some 7 /\
  (exists r,
     issued (snd (close_communication Scripted.transport
                    (Lifecycle.answering 0)))
       (snd (close_communication Scripted.transport
               (snd (close_communication Scripted.transport
                       (Lifecycle.answering 0)))))
     = [(SA_CloseSystem (c_ulong 7), r)]) /\
  (forall op, closes_on_failure op = true ->
     exists c r rest,
       issued (snd (close_communication Scripted.transport
                      (Lifecycle.answering 0)))
         (snd (invoke Scripted.transport op
                 (snd (close_communication Scripted.transport
                         (Lifecycle.answering 0)))))
       = (c, r) :: rest /\
       is_close c = false).
Proof.
  exact (close_is_not_remembered Scripted.transport
           (Lifecycle.answering 0)
           (snd (close_communication Scripted.transport
                   (Lifecycle.answering 0)))
           7 eq_refl eq_refl).
Defined.

(** X12, witness: moves on channel 1 of the session with handle 7. *)
Lemma moves_hold_time_witness :
  (exists r rest,
     issued (Lifecycle.answering 0)
       (snd (relative_move Scripted.transport 1 (-500)
               (Lifecycle.answering 0))) =
     (SA_GotoPositionRelative_S (c_ulong 7) (c_ulong 1) (c_long (-500)) 60000,
      r) :: rest /\
     (rest = [] \/ exists rc, rest = [(SA_CloseSystem (c_ulong 7), rc)])) /\
  (exists r rest,
     issued (Lifecycle.answering 0)
       (snd (absolute_move Scripted.transport 1 (-500)
               (Lifecycle.answering 0))) =
     (SA_GotoPositionAbsolute_S (c_ulong 7) (c_ulong 1) (c_long (-500)) 60000,
      r) :: rest /\
     (rest = [] \/ exists rc, rest = [(SA_CloseSystem (c_ulong 7), rc)])).
Proof.
  exact (moves_hold_time Scripted.transport (Lifecycle.answering 0)
           7 1 (-500) eq_refl).
Defined.

(** ** Ids that are too short, locators that are not ASCII *)
Module ShortFacts.

(** A match starts with the letter [u]. *)
Lemma matches_at_head (s : str) :
  matches_at s = true -> exists t, s = 117%N :: t.
Proof.
  unfold matches_at. intros H.
  destruct (starts_with tag s) as [rest |] eqn:E; [ | discriminate H ].
  apply LocatorFacts.starts_with_inv in E. subst s. cbn. eauto.
Qed.

(** Text without the letter [u] has no match at any offset. *)
Lemma no_u_no_match (s : str) :
  Forall (fun c => c <> 117%N) s ->
  forall i, matches_at (skipn i s) = false.
Proof.
  intros H i. destruct (matches_at (skipn i s)) eqn:Hm; [ | reflexivity ].
  destruct (matches_at_head _ Hm) as [t Ht].
  assert (Hin : In 117%N s).
  { rewrite <- (firstn_skipn i s), Ht. apply in_or_app. right. left.
    reflexivity. }
  rewrite Forall_forall in H. destruct (H _ Hin). reflexivity.
Qed.

(** Fewer digits than asked for, then spaces: the digits do not suffice. *)
Lemma digits_at_short (ds : str) (n m : nat) :
  (List.length ds < n)%nat ->
  digits_at n (ds ++ repeat 32%N m) = false.
Proof.
  revert n. induction ds as [| c ds IH]; intros n Hn.
  - destruct n as [| n]; [ inversion Hn | ].
    destruct m; reflexivity.
  - destruct n as [| n]; [ inversion Hn | ]. cbn.
    rewrite IH by (cbn in Hn; lia). apply andb_false_r.
Qed.

Lemma digit_is_not_u (c : N) : is_digit c = true -> c <> 117%N.
Proof.
  unfold is_digit. intros H ->. discriminate H.
Qed.

Lemma encode_non_ascii (s : str) :
  Exists (fun c => (128 <= c)%N) s -> ascii_encode s = None.
Proof.
  induction 1 as [c t Hc | c t Ht IH]; cbn [ascii_encode].
  - apply N.ltb_ge in Hc. rewrite Hc. reflexivity.
  - destruct (c <? 128)%N; [ | reflexivity ].
    destruct (Byte.of_N c); [ | reflexivity ].
    rewrite IH. reflexivity.
Qed.

End ShortFacts.

Section Edges.

Context {D : Type}.
Variable T : Transport D.

(** X13.  An entry whose id has fewer than ten digits is not a locator:
    when the buffer holds the tag, fewer than ten digits and then only
    spaces, [get_controller_locator] raises
    [Exception('No controller found')]. *)
Theorem short_id_is_rejected
  (w : World D) (r : reply) (d : D) (ds : str) (n : nat) :
  T find_systems_call (device w) = (r, d) ->
  status r = 0 ->
  utf8_decode (out_buffer r) = Some (tag ++ ds ++ repeat 32%N n) ->
  Forall (fun c => is_digit c = true) ds ->
  (List.length ds < id_digits)%nat ->
  fst (get_controller_locator T w) = Raise (Exception Msg.no_controller).
Proof.
  intros E Hs Hdec Hds Hlen.
  rewrite (get_controller_locator_run T w r d E). cbn [fst].
  unfold locator_outcome. rewrite Hs, Hdec. cbn [Z.eqb].
  rewrite LocatorFacts.findall_none; [ reflexivity | ].
  intros [| i].
  - cbn [skipn]. unfold matches_at.
    rewrite LocatorFacts.starts_with_app.
    apply ShortFacts.digits_at_short. exact Hlen.
  - change (tag ++ ds ++ repeat 32%N n)
      with (117%N :: (text "sb:id:" ++ ds ++ repeat 32%N n)).
    cbn [skipn]. apply ShortFacts.no_u_no_match.
    apply Forall_app. split; [ repeat constructor; discriminate | ].
    apply Forall_app. split.
    + eapply Forall_impl; [ | exact Hds ]. apply ShortFacts.digit_is_not_u.
    + apply Forall_forall. intros c Hc. apply repeat_spec in Hc. subst c.
      discriminate.
Qed.

(** X14.  [init_communication] hands an ASCII locator to [SA_OpenSystem]
    byte for byte, with the option [sync], as its only library call.  A
    locator with a character outside ASCII raises [UnicodeEncodeError]
    before anything is sent: the world is as it was. *)
Theorem init_communication_locator (w : World D) (locator : str) :
  (Forall (fun c => (c < 128)%N) locator ->
   exists b r,
     map Byte.to_N b = locator /\
     issued w (snd (init_communication T locator w))
     = [(SA_OpenSystem b (ascii_bytes "sync"), r)]) /\
  (Exists (fun c => (128 <= c)%N) locator ->
   init_communication T locator w = (Raise UnicodeEncodeError, w)).
Proof.
  split.
  - intros Hascii.
    destruct (ScanFacts.ascii_encode_ascii locator Hascii) as (b & Hb & Hmap).
    destruct (T (SA_OpenSystem b (ascii_bytes "sync")) (device w))
      as [r d] eqn:E.
    exists b, r. split; [ exact Hmap | ].
    rewrite (init_communication_run T w locator b r d Hb E).
    apply issued_app. reflexivity.
  - intros Hnon. apply init_communication_unencodable.
    apply ShortFacts.encode_non_ascii. exact Hnon.
Qed.

End Edges.

(** X13, witness: an id of nine digits. *)
Lemma short_id_is_rejected_witness :
  fst (get_controller_locator Scripted.transport
         (DiscoveryScenario.discovering (ascii_bytes "usb:id:311816723")))
    = Raise (Exception "No controller found").
Proof.
  assert (Hdec : utf8_decode
                   (out_buffer
                      (Scripted.filled (ascii_bytes "usb:id:311816723")))
                 = Some (tag ++ text "311816723" ++ repeat 32%N 4080))
    by (vm_compute; reflexivity).
  assert (Hds : Forall (fun c => is_digit c = true) (text "311816723"))
    by (repeat constructor).
  assert (Hlen : (List.length (text "311816723") < id_digits)%nat)
    by (vm_compute; repeat constructor).
  exact (short_id_is_rejected Scripted.transport
           (DiscoveryScenario.discovering (ascii_bytes "usb:id:311816723"))
           (Scripted.filled (ascii_bytes "usb:id:311816723")) []
           (text "311816723") 4080 eq_refl eq_refl Hdec Hds Hlen).
Defined.

(** X14, witness: an ASCII locator, and one with the character U+00E9. *)
Lemma init_communication_locator_witness :
  (exists b r,
     map Byte.to_N b = text "usb:id:3118167233" /\
     issued (Scripted.world blank [])
       (snd (init_communication Scripted.transport
               (text "usb:id:3118167233") (Scripted.world blank [])))
     = [(SA_OpenSystem b (ascii_bytes "sync"), r)]) /\
  init_communication Scripted.transport (text "usb:id:" ++ [233%N])
    (Scripted.world blank [])
  = (Raise UnicodeEncodeError, Scripted.world blank []).
Proof.
  split.
  - apply (proj1 (init_communication_locator Scripted.transport
                    (Scripted.world blank []) (text "usb:id:3118167233"))).
    repeat constructor.
  - apply (proj2 (init_communication_locator Scripted.transport
                    (Scripted.world blank []) (text "usb:id:" ++ [233%N]))).
    apply Exists_exists. exists 233%N. split.
    + apply in_or_app. right. left. reflexivity.
    + discriminate.
Defined.
